(** * tumblr.go: blog paths, the NPF media container, query helpers

    A shallow embedding of [src/tumblelog.go] and [src/post.go].

    Go strings are byte sequences and are embedded as [string]; a [[]byte]
    is a [list byte]; a slice that may be [nil] is an [option (list _)];
    a call that may panic returns a [go] outcome. *)

From Stdlib Require Import String Ascii List Bool ZArith Lia.
From Stdlib Require Import Strings.Byte.
Import ListNotations.

Local Open Scope list_scope.
Local Open Scope string_scope.

Set Implicit Arguments.
Set Warnings "-register-all".

(* ================================================================== *)
(** * Strings *)
(* ================================================================== *)

Module strings.

(** [strings.HasPrefix(s, prefix)]. *)
Fixpoint HasPrefix (s prefix : string) : bool :=
  match prefix, s with
  | EmptyString, _ => true
  | String _ _, EmptyString => false
  | String p prefix', String c s' => Ascii.eqb c p && HasPrefix s' prefix'
  end.

(** [strings.Contains(s, substr)]: [substr] occurs somewhere in [s]. *)
Fixpoint Contains (s substr : string) : bool :=
  HasPrefix s substr ||
  match s with
  | EmptyString => false
  | String _ s' => Contains s' substr
  end.

(** [strings.ContainsRune(s, c)] for a one-byte rune. *)
Fixpoint ContainsByte (s : string) (c : ascii) : bool :=
  match s with
  | EmptyString => false
  | String d s' => Ascii.eqb d c || ContainsByte s' c
  end.

End strings.

(* ================================================================== *)
(** * fmt.Sprintf on string operands *)
(* ================================================================== *)

Section Fmt.

(** Both call sites pass one string operand and use the verb [%s].  The
    model follows [doPrintf] for literal text, [%%], [%s] and [%v] (on a
    string operand both print the operand as it is), a format that ends
    after [%], a verb with no operand left and operands left over at the
    end.  Every other directive (flags, width, precision, argument
    indexes, other verbs) is printed by [fmt_rest], the part of the
    standard library that is left abstract: it receives the format from
    the offending [%] on, and the operands not yet consumed. *)
Variable fmt_rest : string -> list string -> string.

Definition noVerbString : string := "%!(NOVERB)".

Definition missingArg (verb : ascii) : string :=
  "%!" ++ String verb "(MISSING)".

Fixpoint extraOperands (a : list string) : string :=
  match a with
  | [] => ""
  | [x] => "string=" ++ x
  | x :: a' => "string=" ++ x ++ ", " ++ extraOperands a'
  end.

(** The check at the end of [doPrintf] for operands nobody consumed. *)
Definition extraArgs (a : list string) : string :=
  match a with
  | [] => ""
  | _ :: _ => "%!(EXTRA " ++ extraOperands a ++ ")"
  end.

Definition prints_operand (verb : ascii) : bool :=
  Ascii.eqb verb "s" || Ascii.eqb verb "v".

Fixpoint doPrintf (format : string) (a : list string) : string :=
  match format with
  | EmptyString => extraArgs a
  | String c rest =>
    if Ascii.eqb c "%" then
      match rest with
      | EmptyString => noVerbString ++ extraArgs a
      | String verb rest' =>
        if Ascii.eqb verb "%" then String "%" (doPrintf rest' a)
        else if prints_operand verb then
          match a with
          | [] => missingArg verb ++ doPrintf rest' []
          | x :: a' => x ++ doPrintf rest' a'
          end
        else fmt_rest format a
      end
    else String c (doPrintf rest a)
  end.

Definition Sprintf (format : string) (a : list string) : string :=
  doPrintf format a.

(* ---------------------------------------------------------------- *)
(** ** tumblelog.go: normalizeBlogName, blogPath *)
(* ---------------------------------------------------------------- *)

Definition normalizeBlogName (name : string) : string :=
  if negb (strings.Contains name ".")
  then Sprintf "%s.tumblr.com" [name]
  else name.

Definition blogPath (path name : string) : string :=
  Sprintf path [normalizeBlogName name].

End Fmt.

(* ================================================================== *)
(** * Go values shared by both files *)
(* ================================================================== *)

(** An [error] value.  [errors_New] is [errors.New]; an error made by a
    collaborator (encoding/json, the client capability) records where it
    comes from. *)
Inductive error : Type :=
| errors_New (text : string)
| foreign_error (origin text : string).

Inductive runtime_error : Type :=
| index_out_of_range (index length : nat)
| nil_dereference
| reflect_panic (text : string).

(** Outcome of a call that may panic. *)
Inductive go (A : Type) : Type :=
| Return (a : A)
| Panic (e : runtime_error).

Arguments Return {A} a.
Arguments Panic {A} e.

(** A slice: [None] is the nil slice, [Some []] an empty one that is not
    nil (what [make([]T, 0)] gives). *)
Definition slice (A : Type) : Type := option (list A).

Definition make_slice {A : Type} : slice A := Some [].

(* ================================================================== *)
(** * encoding/json: a reference model *)
(* ================================================================== *)

(** The decoder of the standard library is a collaborator of this package.
    The functions of the package are embedded over an arbitrary decoder
    (section variables below); this module gives one decoder to run them
    on concrete bytes.  It reads a JSON text as the library does: the
    syntax of numbers, strings and escapes, a string coerced to well-formed
    UTF-8 (a byte that starts no valid sequence becomes U+FFFD), a number
    that is not an integer literal kept as its text.  The limit of the
    library on the depth of nesting is not modelled. *)
Module json.

(** A decoded JSON value.  [Number] is a number written as an integer
    literal, [Fraction] one written with a fraction or an exponent, with
    its text. *)
Inductive Value : Type :=
| Null
| Bool (b : bool)
| Number (z : Z)
| Str (s : string)
| Array (elems : list Value)
| Object (members : list (string * Value))
| Fraction (literal : string).

Definition SyntaxError : error := foreign_error "json" "invalid JSON text".
Definition Unsupported : error :=
  foreign_error "json" "text outside the modelled fragment".
Definition UnmarshalTypeError (field : string) : error :=
  foreign_error "json" ("cannot unmarshal into field " ++ field).

Definition is_space (b : byte) : bool :=
  Byte.eqb b " "%byte || Byte.eqb b x09 || Byte.eqb b x0a || Byte.eqb b x0d.

Fixpoint skip_space (l : list byte) : list byte :=
  match l with
  | b :: l' => if is_space b then skip_space l' else l
  | [] => []
  end.

Definition digit_of (b : byte) : option Z :=
  let n := Z.of_N (Byte.to_N b) in
  if ((48 <=? n) && (n <=? 57))%Z then Some (n - 48)%Z else None.

(** Digits after the first one. *)
Fixpoint scan_digits (acc : Z) (l : list byte) : Z * list byte :=
  match l with
  | b :: l' =>
    match digit_of b with
    | Some d => scan_digits (10 * acc + d)%Z l'
    | None => (acc, l)
    end
  | [] => (acc, [])
  end.

Definition starts_fraction (l : list byte) : bool :=
  match l with
  | b :: _ => Byte.eqb b "."%byte || Byte.eqb b "e"%byte || Byte.eqb b "E"%byte
  | [] => false
  end.

(** An integer literal: [0] or a digit from 1 to 9 followed by digits. *)
Definition scan_nat (l : list byte) : error + (Z * list byte) :=
  match l with
  | b :: l' =>
    match digit_of b with
    | Some 0%Z =>
      match l' with
      | c :: _ =>
        match digit_of c with
        | Some _ => inl SyntaxError
        | None => inr (0%Z, l')
        end
      | [] => inr (0%Z, [])
      end
    | Some d => inr (scan_digits d l')
    | None => inl SyntaxError
    end
  | [] => inl SyntaxError
  end.

(** One digit at least, and the digits that follow. *)
Definition scan_digits1 (l : list byte) : option (list byte) :=
  match l with
  | b :: l' =>
    match digit_of b with
    | Some d => Some (snd (scan_digits d l'))
    | None => None
    end
  | [] => None
  end.

Definition scan_exponent (l : list byte) : option (list byte) :=
  match l with
  | e :: l' =>
    if Byte.eqb e "e"%byte || Byte.eqb e "E"%byte then
      match l' with
      | sign :: l'' =>
        if Byte.eqb sign "+"%byte || Byte.eqb sign "-"%byte
        then scan_digits1 l''
        else scan_digits1 l'
      | [] => None
      end
    else Some l
  | [] => Some []
  end.

(** What may follow the integer part: a dot and digits, then an
    exponent. *)
Definition scan_fraction (l : list byte) : option (list byte) :=
  match l with
  | dot :: l' =>
    if Byte.eqb dot "."%byte then
      match scan_digits1 l' with
      | Some rest => scan_exponent rest
      | None => None
      end
    else scan_exponent l
  | [] => Some []
  end.

(** A number at the head of [l]. *)
Definition number (l : list byte) : error + (Value * list byte) :=
  let negative :=
    match l with b :: _ => Byte.eqb b "-"%byte | [] => false end in
  match scan_nat (if negative then tl l else l) with
  | inl err => inl err
  | inr (n, rest) =>
    if starts_fraction rest then
      match scan_fraction rest with
      | Some rest' =>
        inr (Fraction
               (string_of_list_byte (firstn (length l - length rest') l)),
             rest')
      | None => inl SyntaxError
      end
    else inr (Number (if negative then (- n)%Z else n), rest)
  end.

Definition hex_of (b : byte) : option N :=
  let n := Byte.to_N b in
  if ((48 <=? n) && (n <=? 57))%N then Some (n - 48)%N
  else if ((97 <=? n) && (n <=? 102))%N then Some (n - 87)%N
  else if ((65 <=? n) && (n <=? 70))%N then Some (n - 55)%N
  else None.

(** [getu4]: the code unit that four hexadecimal digits write. *)
Definition hex4 (h1 h2 h3 h4 : byte) : option N :=
  match hex_of h1, hex_of h2, hex_of h3, hex_of h4 with
  | Some a, Some b, Some c, Some d =>
    Some (4096 * a + 256 * b + 16 * c + d)%N
  | _, _, _, _ => None
  end.

Definition is_surrogate (r : N) : bool :=
  ((55296 <=? r) && (r <? 57344))%N.

(** [utf16.DecodeRune]: the code point of a pair of surrogates, if it is
    one. *)
Definition surrogate_pair (r1 r2 : N) : option N :=
  if ((55296 <=? r1) && (r1 <? 56320) && (56320 <=? r2) && (r2 <? 57344))%N
  then Some ((r1 - 55296) * 1024 + (r2 - 56320) + 65536)%N
  else None.

Definition replacement : string :=
  String (ascii_of_byte xef)
    (String (ascii_of_byte xbf) (String (ascii_of_byte xbd) EmptyString)).

(** [utf8.EncodeRune] *)
Definition encode_rune (r : N) : string :=
  let byte_of (n : N) := ascii_of_N n in
  if (r <? 128)%N then String (byte_of r) EmptyString
  else if (r <? 2048)%N then
    String (byte_of (192 + r / 64)%N)
      (String (byte_of (128 + r mod 64)%N) EmptyString)
  else if is_surrogate r || (1114111 <? r)%N then replacement
  else if (r <? 65536)%N then
    String (byte_of (224 + r / 4096)%N)
      (String (byte_of (128 + (r / 64) mod 64)%N)
         (String (byte_of (128 + r mod 64)%N) EmptyString))
  else
    String (byte_of (240 + r / 262144)%N)
      (String (byte_of (128 + (r / 4096) mod 64)%N)
         (String (byte_of (128 + (r / 64) mod 64)%N)
            (String (byte_of (128 + r mod 64)%N) EmptyString))).

Definition in_range (lo hi : N) (b : byte) : bool :=
  ((lo <=? Byte.to_N b) && (Byte.to_N b <=? hi))%N.

(** The first byte of a UTF-8 sequence of several bytes: the length of
    the sequence and the range of its second byte. *)
Definition utf8_lead (b : byte) : option (nat * N * N) :=
  let n := Byte.to_N b in
  if ((194 <=? n) && (n <=? 223))%N then Some (2%nat, 128, 191)%N
  else if (n =? 224)%N then Some (3%nat, 160, 191)%N
  else if (n =? 237)%N then Some (3%nat, 128, 159)%N
  else if ((225 <=? n) && (n <=? 239))%N then Some (3%nat, 128, 191)%N
  else if (n =? 240)%N then Some (4%nat, 144, 191)%N
  else if ((241 <=? n) && (n <=? 243))%N then Some (4%nat, 128, 191)%N
  else if (n =? 244)%N then Some (4%nat, 128, 143)%N
  else None.

Definition prepend (prefix : string) (r : error + (string * list byte))
  : error + (string * list byte) :=
  match r with
  | inr (s, rest) => inr (prefix ++ s, rest)
  | inl err => inl err
  end.

Definition chars (l : list byte) : string := string_of_list_byte l.

(** The body of a string literal, after the opening quote. *)
Fixpoint scan_string (l : list byte) : error + (string * list byte) :=
  match l with
  | [] => inl SyntaxError
  | b :: l' =>
    if Byte.eqb b x22 then inr (EmptyString, l')
    else if Byte.eqb b x5c then
      match l' with
      | e :: l'' =>
        let keep (c : byte) :=
          match scan_string l'' with
          | inr (s, rest) => inr (String (ascii_of_byte c) s, rest)
          | inl err => inl err
          end in
        if Byte.eqb e x22 then keep x22
        else if Byte.eqb e x5c then keep x5c
        else if Byte.eqb e "/"%byte then keep "/"%byte
        else if Byte.eqb e "b"%byte then keep x08
        else if Byte.eqb e "f"%byte then keep x0c
        else if Byte.eqb e "n"%byte then keep x0a
        else if Byte.eqb e "r"%byte then keep x0d
        else if Byte.eqb e "t"%byte then keep x09
        else if Byte.eqb e "u"%byte then
          match l'' with
          | h1 :: h2 :: h3 :: h4 :: r =>
            match hex4 h1 h2 h3 h4 with
            | None => inl SyntaxError
            | Some rr =>
              if is_surrogate rr then
                match r with
                | b1 :: b2 :: g1 :: g2 :: g3 :: g4 :: r2 =>
                  match (if Byte.eqb b1 x5c && Byte.eqb b2 "u"%byte
                         then hex4 g1 g2 g3 g4 else None) with
                  | Some rr1 =>
                    match surrogate_pair rr rr1 with
                    | Some dec => prepend (encode_rune dec) (scan_string r2)
                    | None => prepend replacement (scan_string r)
                    end
                  | None => prepend replacement (scan_string r)
                  end
                | _ => prepend replacement (scan_string r)
                end
              else prepend (encode_rune rr) (scan_string r)
            end
          | _ => inl SyntaxError
          end
        else inl SyntaxError
      | [] => inl SyntaxError
      end
    else if (Byte.to_N b <? 32)%N then inl SyntaxError
    else if (127 <? Byte.to_N b)%N then
      match utf8_lead b, l' with
      | Some (2%nat, lo, hi), b1 :: r1 =>
        if in_range lo hi b1
        then prepend (chars [b; b1]) (scan_string r1)
        else prepend replacement (scan_string l')
      | Some (3%nat, lo, hi), b1 :: b2 :: r2 =>
        if in_range lo hi b1 && in_range 128 191 b2
        then prepend (chars [b; b1; b2]) (scan_string r2)
        else prepend replacement (scan_string l')
      | Some (4%nat, lo, hi), b1 :: b2 :: b3 :: r3 =>
        if in_range lo hi b1 && in_range 128 191 b2 && in_range 128 191 b3
        then prepend (chars [b; b1; b2; b3]) (scan_string r3)
        else prepend replacement (scan_string l')
      | _, _ => prepend replacement (scan_string l')
      end
    else
      match scan_string l' with
      | inr (s, rest) => inr (String (ascii_of_byte b) s, rest)
      | inl err => inl err
      end
  end.

Fixpoint expect (word l : list byte) : option (list byte) :=
  match word, l with
  | [], _ => Some l
  | w :: word', b :: l' => if Byte.eqb w b then expect word' l' else None
  | _ :: _, [] => None
  end.

Definition literal (word : list byte) (v : Value) (l : list byte)
  : error + (Value * list byte) :=
  match expect word l with
  | Some rest => inr (v, rest)
  | None => inl SyntaxError
  end.

(** One value at the head of [l]; [elements] and [members] read what
    follows the opening bracket or a comma. *)
Fixpoint value (fuel : nat) (l : list byte) : error + (Value * list byte) :=
  match fuel with
  | O => inl Unsupported
  | S fuel' =>
    match skip_space l with
    | [] => inl SyntaxError
    | b :: l' =>
      if Byte.eqb b "n"%byte then literal (list_byte_of_string "ull") Null l'
      else if Byte.eqb b "t"%byte
      then literal (list_byte_of_string "rue") (Bool true) l'
      else if Byte.eqb b "f"%byte
      then literal (list_byte_of_string "alse") (Bool false) l'
      else if Byte.eqb b x22 then
        match scan_string l' with
        | inr (s, rest) => inr (Str s, rest)
        | inl err => inl err
        end
      else if Byte.eqb b "["%byte then
        match skip_space l' with
        | c :: l'' =>
          if Byte.eqb c "]"%byte then inr (Array [], l'')
          else
            match elements fuel' l' with
            | inr (vs, rest) => inr (Array vs, rest)
            | inl err => inl err
            end
        | [] => inl SyntaxError
        end
      else if Byte.eqb b "{"%byte then
        match skip_space l' with
        | c :: l'' =>
          if Byte.eqb c "}"%byte then inr (Object [], l'')
          else
            match members fuel' l' with
            | inr (ms, rest) => inr (Object ms, rest)
            | inl err => inl err
            end
        | [] => inl SyntaxError
        end
      else number (b :: l')
    end
  end
with elements (fuel : nat) (l : list byte)
  : error + (list Value * list byte) :=
  match fuel with
  | O => inl Unsupported
  | S fuel' =>
    match value fuel' l with
    | inl err => inl err
    | inr (v, rest) =>
      match skip_space rest with
      | c :: rest' =>
        if Byte.eqb c "]"%byte then inr ([v], rest')
        else if Byte.eqb c ","%byte then
          match elements fuel' rest' with
          | inr (vs, rest'') => inr (v :: vs, rest'')
          | inl err => inl err
          end
        else inl SyntaxError
      | [] => inl SyntaxError
      end
    end
  end
with members (fuel : nat) (l : list byte)
  : error + (list (string * Value) * list byte) :=
  match fuel with
  | O => inl Unsupported
  | S fuel' =>
    match skip_space l with
    | q :: l' =>
      if Byte.eqb q x22 then
        match scan_string l' with
        | inl err => inl err
        | inr (key, rest) =>
          match skip_space rest with
          | colon :: rest' =>
            if Byte.eqb colon ":"%byte then
              match value fuel' rest' with
              | inl err => inl err
              | inr (v, rest'') =>
                match skip_space rest'' with
                | c :: rest3 =>
                  if Byte.eqb c "}"%byte then inr ([(key, v)], rest3)
                  else if Byte.eqb c ","%byte then
                    match members fuel' rest3 with
                    | inr (ms, rest4) => inr ((key, v) :: ms, rest4)
                    | inl err => inl err
                    end
                  else inl SyntaxError
                | [] => inl SyntaxError
                end
              end
            else inl SyntaxError
          | [] => inl SyntaxError
          end
        end
      else inl SyntaxError
    | [] => inl SyntaxError
    end
  end.

(** A whole text: one value, white space around it, nothing else. *)
Definition parse (data : list byte) : error + Value :=
  match value (2 * length data + 2) data with
  | inl err => inl err
  | inr (v, rest) =>
    match skip_space rest with
    | [] => inr v
    | _ :: _ => inl SyntaxError
    end
  end.

End json.

(* ================================================================== *)
(** * post.go: the NPF media container *)
(* ================================================================== *)

Module NpfMedia.
Record t : Type := mk {
  Type_ : string;
  Url : string;
  Width : Z;
  Height : Z
}.
(** [NpfMedia{}] *)
Definition zero : t := mk "" "" 0 0.
End NpfMedia.

Module NpfMediaContainer.
Record t : Type := mk {
  Media : NpfMedia.t;
  MediaCollection : slice NpfMedia.t;
  IsArray : bool
}.
Definition zero : t := mk NpfMedia.zero None false.
End NpfMediaContainer.

Import NpfMediaContainer(Media, MediaCollection, IsArray).

Section MediaDecoder.

(** [json.Unmarshal(data, &v)] of the standard library, at the two types
    the container decodes: it receives the bytes and the value [v] points
    to, and gives the value afterwards and the error it returns. *)
Variable json_Unmarshal_NpfMedia :
  list byte -> NpfMedia.t -> NpfMedia.t * option error.
Variable json_Unmarshal_NpfMedia_slice :
  list byte -> slice NpfMedia.t -> slice NpfMedia.t * option error.

(** [func (n *NpfMediaContainer) UnmarshalJSON(data []byte) error]: the
    container [n] points to comes in and goes out. *)
Definition UnmarshalJSON (n : NpfMediaContainer.t) (data : list byte)
  : go (NpfMediaContainer.t * option error) :=
  match data with
  | [] => Panic (index_out_of_range 0 0)
  | data0 :: _ =>
    if Byte.eqb data0 "["%byte then
      match json_Unmarshal_NpfMedia_slice data make_slice with
      | (_, Some err) => Return (n, Some err)
      | (mediaCollection, None) =>
        Return (NpfMediaContainer.mk (Media n) mediaCollection true, None)
      end
    else if Byte.eqb data0 "{"%byte then
      match json_Unmarshal_NpfMedia data NpfMedia.zero with
      | (_, Some err) => Return (n, Some err)
      | (media, None) =>
        Return (NpfMediaContainer.mk media (MediaCollection n) false, None)
      end
    else Return (n, Some (errors_New "unexpected char or whatever"))
  end.

(** What the standard decoder does on an array: the slice it fills is
    not nil, be it empty. *)
Definition array_fills_slice : Prop :=
  forall (rest : list byte) (ms : slice NpfMedia.t),
    json_Unmarshal_NpfMedia_slice ("["%byte :: rest) make_slice = (ms, None) ->
    ms <> None.

End MediaDecoder.

(** The error of the [default] branch. *)
Definition shape_error : error := errors_New "unexpected char or whatever".

(** The bytes of a string, [[]byte(s)]. *)
Definition bytes (s : string) : list byte := list_byte_of_string s.

(** A JSON text written with apostrophes in the place of its double
    quotes. *)
Fixpoint requote (s : string) : string :=
  match s with
  | EmptyString => EmptyString
  | String c s' =>
    String (if Ascii.eqb c "'" then "034"%char else c) (requote s')
  end.

Definition text (s : string) : list byte := bytes (requote s).

(* ================================================================== *)
(** * post.go: the entities of a post *)
(* ================================================================== *)

(** [uint64], [int64] and [int] fields hold a [Z] within their range. *)

Module MiniPost.
Record t : Type := mk {
  Id : Z;
  Type_ : string;
  BlogName : string;
  ReblogKey : string
}.
Definition zero : t := mk 0 "" "" "".
End MiniPost.

(** The client capability is an interface value: [C] is the type of the
    values that implement [ClientInterface], [None] the nil interface. *)
Module PostRef.
Record t (C : Type) : Type := mk {
  MiniPost : MiniPost.t;
  client : option C
}.
Definition zero {C : Type} : t C := mk MiniPost.zero None.
End PostRef.

Module BlogMiniInfo.
Record t : Type := mk {
  Name : string;
  Title : string;
  Description : string;
  Url : string;
  Updated : Z;
  UUID : string
}.
Definition zero : t := mk "" "" "" "" 0 "".
End BlogMiniInfo.

Module Note.
Record t : Type := mk {
  Type_ : string;
  Timestamp : Z;
  BlogName : string;
  BlogUUID : string;
  BlogUrl : string;
  Followed : bool;
  AvatarShape : string;
  ReplyText : string;
  PostID : string;
  ReblogParentBlogName : string
}.
End Note.

Module NpfLink.
Record t : Type := mk {
  Url : string;
  DisplayUrl : string;
  Title : string;
  Description : string;
  Author : string;
  SiteName : string
}.
Definition zero : t := mk "" "" "" "" "" "".
End NpfLink.

Module Formatting.
Record t : Type := mk {
  Type_ : string;
  Url : string;
  Blog : BlogMiniInfo.t
}.
End Formatting.

Module NpfContent.
Record t : Type := mk {
  Type_ : string;
  Subtype : string;
  Text : string;
  Formatting : slice Formatting.t;
  Media : NpfMediaContainer.t;
  AltText : string;
  NpfLink : NpfLink.t;
  Poster : NpfMediaContainer.t
}.
End NpfContent.

Module TrailPost.
Record t : Type := mk { Id : string }.
End TrailPost.

Module BrokenBlog.
Record t : Type := mk { Name : string }.
End BrokenBlog.

Module NpfTrail.
Record t : Type := mk {
  Post : TrailPost.t;
  Blog : BlogMiniInfo.t;
  Content : slice NpfContent.t;
  BrokenBlog : BrokenBlog.t
}.
End NpfTrail.

(** The anonymous struct of the field [Reblog]. *)
Module Reblog.
Record t : Type := mk {
  Comment : string;
  TreeHTML : string
}.
Definition zero : t := mk "" "".
End Reblog.

Module Post.
Record t (C : Type) : Type := mk {
  PostRef : PostRef.t C;
  Body : string;
  CanLike : bool;
  CanReblog : bool;
  CanReply : bool;
  CanSendInMessage : bool;
  Caption : string;
  Date : string;
  DisplayAvatar : bool;
  Followed : bool;
  Format : string;
  Highlighted : slice json.Value;
  Liked : bool;
  NoteCount : Z;
  PermalinkUrl : string;
  PostUrl : string;
  Reblog : Reblog.t;
  Notes : slice Note.t;
  RecommendedColor : string;
  RecommendedSource : bool;
  ShortUrl : string;
  Slug : string;
  SourceTitle : string;
  SourceUrl : string;
  State : string;
  Summary : string;
  Tags : slice string;
  Timestamp : Z;
  FeaturedTimestamp : Z;
  TrackName : string;
  Content : slice NpfContent.t;
  Trail : slice NpfTrail.t
}.
Definition zero {C : Type} : t C :=
  mk PostRef.zero "" false false false false "" "" false false "" None
     false 0 "" "" Reblog.zero None "" false "" "" "" "" "" "" None 0 0 ""
     None None.
End Post.

(** [func (r *PostRef) SetClient(c ClientInterface)]: the reference [r]
    points to, afterwards. *)
Definition PostRef_SetClient {C : Type} (r : PostRef.t C) (c : option C)
  : PostRef.t C :=
  PostRef.mk (PostRef.MiniPost r) c.

(** [p.SetClient(c)] on a post: the method of the embedded [PostRef] is
    promoted, and assigns in the post. *)
Definition Post_SetClient {C : Type} (p : Post.t C) (c : option C)
  : Post.t C :=
  Post.mk (PostRef_SetClient (Post.PostRef p) c)
    (Post.Body p) (Post.CanLike p) (Post.CanReblog p) (Post.CanReply p)
    (Post.CanSendInMessage p) (Post.Caption p) (Post.Date p)
    (Post.DisplayAvatar p) (Post.Followed p) (Post.Format p)
    (Post.Highlighted p) (Post.Liked p) (Post.NoteCount p)
    (Post.PermalinkUrl p) (Post.PostUrl p) (Post.Reblog p) (Post.Notes p)
    (Post.RecommendedColor p) (Post.RecommendedSource p) (Post.ShortUrl p)
    (Post.Slug p) (Post.SourceTitle p) (Post.SourceUrl p) (Post.State p)
    (Post.Summary p) (Post.Tags p) (Post.Timestamp p)
    (Post.FeaturedTimestamp p) (Post.TrackName p) (Post.Content p)
    (Post.Trail p).

(** [func (p *Post) GetSelf() *Post] *)
Definition GetSelf {C : Type} (p : Post.t C) : Post.t C := p.

(* ================================================================== *)
(** * The response of the client capability *)
(* ================================================================== *)

(** [http.Header]: the values under each key; a map, so a key is looked up
    at its first entry. *)
Module Header.
Definition t : Type := list (string * list string).

Fixpoint lookup (h : t) (key : string) : option (list string) :=
  match h with
  | [] => None
  | (k, v) :: h' => if String.eqb k key then Some v else lookup h' key
  end.

(** [h.Get(key)] for a key in canonical form, as ["Location"] is: the
    first value under it, or [""]. *)
Definition Get (h : t) (key : string) : string :=
  match lookup h key with
  | Some (v :: _) => v
  | _ => ""
  end.
End Header.

(** Modelled from the spec: the type [Response] is declared outside the
    two source files; it is "a response with a byte body and headers", and
    [Result] is the map the body is parsed into ("parsing the body (looking
    for a [location] key)").  A nil map is [None]. *)
Module Response.
Record t : Type := mk {
  body : list byte;
  Headers : Header.t;
  Result : option (list (string * json.Value))
}.
Definition zero : t := mk [] [] None.

(** [v, ok := m[key]] on a map that may be nil. *)
Fixpoint lookup (m : list (string * json.Value)) (key : string)
  : option json.Value :=
  match m with
  | [] => None
  | (k, v) :: m' => if String.eqb k key then Some v else lookup m' key
  end.

Definition index (r : t) (key : string) : option json.Value :=
  match Result r with
  | Some m => lookup m key
  | None => None
  end.
End Response.

Module Posts.
Record t (C : Type) : Type := mk {
  client : option C;
  response : Response.t;
  Posts : slice (Post.t C);
  TotalPosts : Z
}.
Definition zero {C : Type} : t C := mk None Response.zero None 0.
End Posts.

(* ================================================================== *)
(** * tumblelog.go: the entities of a blog *)
(* ================================================================== *)

Module BlogRef.
Record t (C : Type) : Type := mk {
  client : option C;
  Name : string
}.
Definition zero {C : Type} : t C := mk None "".
End BlogRef.

Module Blog.
Record t (C : Type) : Type := mk {
  BlogRef : BlogRef.t C;
  Url : string;
  Title : string;
  Posts : Z;
  Ask : bool;
  AskAnon : bool;
  AskAnonPageTitle : string;
  CanSendFanMail : bool;
  CanSubmit : bool;
  CanSubscribe : bool;
  Description : string;
  Followed : bool;
  IsBlockedFromPrimary : bool;
  IsNSFW : bool;
  ShareLikes : bool;
  SubmissionPageTitle : string;
  Subscribed : bool;
  TotalPosts : Z;
  Updated : Z;
  UUID : string
}.
Definition zero {C : Type} : t C :=
  mk BlogRef.zero "" "" 0 false false "" false false false "" false false
     false false "" false 0 0 "".

(** [blog.client = c]: the field of the embedded [BlogRef] is assigned. *)
Definition set_client {C : Type} (b : t C) (c : option C) : t C :=
  mk (BlogRef.mk c (BlogRef.Name (BlogRef b)))
     (Url b) (Title b) (Posts b) (Ask b) (AskAnon b) (AskAnonPageTitle b)
     (CanSendFanMail b) (CanSubmit b) (CanSubscribe b) (Description b)
     (Followed b) (IsBlockedFromPrimary b) (IsNSFW b) (ShareLikes b)
     (SubmissionPageTitle b) (Subscribed b) (TotalPosts b) (Updated b)
     (UUID b).
End Blog.

(* ================================================================== *)
(** * The query helpers *)
(* ================================================================== *)

(** [url.Values] *)
Definition Values : Type := list (string * list string).

(** The target of [json.Unmarshal] in [queryPosts]:
    [struct { Response Posts `json:"response"` }]. *)
Module postsEnvelope.
Record t (C : Type) : Type := mk { Response : Posts.t C }.
Definition zero {C : Type} : t C := mk Posts.zero.
End postsEnvelope.

(** The target of [json.Unmarshal] in [GetBlogInfo]:
    [struct { Response struct { Blog Blog `json:"blog"` } `json:"response"` }]. *)
Module blogEnvelope.
Record inner (C : Type) : Type := mk_inner { Blog : Blog.t C }.
Record t (C : Type) : Type := mk { Response : inner C }.
Definition zero {C : Type} : t C := mk (mk_inner Blog.zero).
End blogEnvelope.

Section Client.

Variable fmt_rest : string -> list string -> string.

(** The client capability: [C] is the type of its values, [World] the
    state of everything a request can touch (the network, the server, a
    mock's counters).  A request turns a world into the next one. *)
Variables C World : Type.
Variable Get :
  C -> string -> World -> (Response.t * option error) * World.
Variable GetWithParams :
  C -> string -> Values -> World -> (Response.t * option error) * World.

(** [json.Unmarshal] at the two envelope types. *)
Variable json_Unmarshal_posts :
  list byte -> postsEnvelope.t C -> postsEnvelope.t C * option error.
Variable json_Unmarshal_blog :
  list byte -> blogEnvelope.t C -> blogEnvelope.t C * option error.

(** [func (r *Response) PopulateFromBody() error], declared outside the
    two source files: the response [r] points to comes in and goes out. *)
Variable PopulateFromBody : Response.t -> Response.t * option error.

(** Computations that make requests and may panic. *)
Definition M (A : Type) : Type := World -> go A * World.

Definition ret {A : Type} (a : A) : M A := fun w => (Return a, w).

Definition bind {A B : Type} (m : M A) (f : A -> M B) : M B :=
  fun w =>
    match m w with
    | (Return a, w') => f a w'
    | (Panic e, w') => (Panic e, w')
    end.

Notation "x <- m ;; k" := (bind m (fun x => k))
  (at level 61, m at next level, right associativity).

(** A method call on an interface value panics on the nil interface. *)
Definition call_Get (client : option C) (path : string)
  : M (Response.t * option error) :=
  fun w =>
    match client with
    | Some c => let (r, w') := Get c path w in (Return r, w')
    | None => (Panic nil_dereference, w)
    end.

Definition call_GetWithParams (client : option C) (path : string)
    (params : Values) : M (Response.t * option error) :=
  fun w =>
    match client with
    | Some c => let (r, w') := GetWithParams c path params w in (Return r, w')
    | None => (Panic nil_dereference, w)
    end.

(** [queryPosts]: a nil [*Posts] is [None]. *)
Definition queryPosts (client : option C) (path name : string)
    (params : Values) : M (option (Posts.t C) * option error) :=
  r <- call_GetWithParams client (blogPath fmt_rest path name) params ;;
  let (response, err) := r in
  match err with
  | Some e => ret (None, Some e)
  | None =>
    let (posts, err) :=
      json_Unmarshal_posts (Response.body response) postsEnvelope.zero in
    match err with
    | None =>
      let R := postsEnvelope.Response posts in
      ret (Some (Posts.mk client response
                          (Posts.Posts R) (Posts.TotalPosts R)), None)
    | Some e => ret (None, Some e)
    end
  end.

Definition GetPosts (client : option C) (name : string) (params : Values)
  : M (option (Posts.t C) * option error) :=
  queryPosts client "/blog/%s/posts" name params.

Definition GetBlogInfo (client : option C) (name : string)
  : M (option (Blog.t C) * option error) :=
  r <- call_Get client (blogPath fmt_rest "/blog/%s/info" name) ;;
  let (response, err) := r in
  match err with
  | Some e => ret (None, Some e)
  | None =>
    let (blog, err) :=
      json_Unmarshal_blog (Response.body response) blogEnvelope.zero in
    match err with
    | Some e => ret (None, Some e)
    | None =>
      ret (Some (Blog.set_client
                   (blogEnvelope.Blog (blogEnvelope.Response blog)) client),
           None)
    end
  end.

Definition GetAvatar (client : option C) (name : string)
  : M (string * option error) :=
  r <- call_Get client (blogPath fmt_rest "/blog/%s/avatar" name) ;;
  let (response, err) := r in
  match err with
  | Some e => ret ("", Some e)
  | None =>
    let location := Header.Get (Response.Headers response) "Location" in
    if (0 <? String.length location)%nat then ret (location, None)
    else
      let (response, err) := PopulateFromBody response in
      match err with
      | Some e => ret ("", Some e)
      | None =>
        match Response.index response "location" with
        | Some (json.Str location) => ret (location, None)
        | _ => ret ("", Some (errors_New "Unable to detect avatar location"))
        end
      end
  end.

(** [func NewBlogRef(client ClientInterface, name string) *BlogRef] *)
Definition NewBlogRef (client : option C) (name : string) : BlogRef.t C :=
  BlogRef.mk client name.

(** [func (b *BlogRef) GetInfo()], on the reference [b] points to. *)
Definition BlogRef_GetInfo (b : BlogRef.t C)
  : M (option (Blog.t C) * option error) :=
  GetBlogInfo (BlogRef.client b) (BlogRef.Name b).

(** [func (b *BlogRef) GetPosts(params url.Values)] *)
Definition BlogRef_GetPosts (b : BlogRef.t C) (params : Values)
  : M (option (Posts.t C) * option error) :=
  GetPosts (BlogRef.client b) (BlogRef.Name b) params.

(** [func (b *BlogRef) getName() string] *)
Definition getName (b : BlogRef.t C) : string := BlogRef.Name b.

End Client.

(* ================================================================== *)
(** * reflect: looking a field up by name *)
(* ================================================================== *)

Module reflect.

(** A [reflect.Value]: a value with its type. *)
Record Value : Type := ValueOf { TypeOf : Type; Interface : TypeOf }.
Arguments ValueOf {TypeOf} Interface.

(** A field of a struct type whose values are read off a [T]: its name,
    whether it is embedded, how to read it, and the fields of its own type
    when that is a struct. *)
Inductive StructField (T : Type) : Type :=
| mkField (Name : string) (Anonymous : bool) (read : T -> Value)
          (fields : option (list (StructField T))).

Section Fields.
Variable T : Type.

Definition Name (f : StructField T) : string :=
  let (n, _, _, _) := f in n.
Definition Anonymous (f : StructField T) : bool :=
  let (_, a, _, _) := f in a.
Definition read (f : StructField T) : T -> Value :=
  let (_, _, r, _) := f in r.
Definition fields (f : StructField T) : option (list (StructField T)) :=
  let (_, _, _, fs) := f in fs.

(** A struct type waiting to be scanned, with the index that leads to
    it. *)
Definition fieldScan : Type := (list nat * list (StructField T))%type.

(** What the scan of one level of embedding has seen. *)
Record level : Type := mkLevel {
  result : option (list nat);
  annihilated : bool;
  next : list fieldScan
}.

Variable name : string.

(** The fields of one struct type, from field [i] on. *)
Fixpoint scanFields (index : list nat) (i : nat)
    (fs : list (StructField T)) (st : level) : level :=
  match fs with
  | [] => st
  | f :: fs' =>
    let st' :=
      if String.eqb (Name f) name then
        match result st with
        | Some _ => mkLevel (result st) true (next st)
        | None => mkLevel (Some (index ++ [i])%list) (annihilated st) (next st)
        end
      else
        match result st, Anonymous f, fields f with
        | None, true, Some sub =>
          mkLevel None (annihilated st)
                  (next st ++ [((index ++ [i])%list, sub)])%list
        | _, _, _ => st
        end
    in scanFields index (S i) fs' st'
  end.

Fixpoint scanLevel (current : list fieldScan) (st : level) : level :=
  match current with
  | [] => st
  | (index, fs) :: current' =>
    scanLevel current' (scanFields index 0 fs st)
  end.

(** [FieldByNameFunc]: breadth first through the embedded structs;
    two matches at one depth annihilate each other.  (No struct type
    is embedded twice in the types of this package, so the count of
    repeated types is left out.) *)
Fixpoint search (fuel : nat) (current : list fieldScan)
  : option (list nat) :=
  match fuel with
  | O => None
  | S fuel' =>
    let st := scanLevel current (mkLevel None false []) in
    if annihilated st then None
    else
      match result st with
      | Some index => Some index
      | None =>
        match next st with
        | [] => None
        | _ :: _ => search fuel' (next st)
        end
      end
  end.

(** The quick check of [FieldByName] over the fields of the type
    itself. *)
Fixpoint direct (i : nat) (fs : list (StructField T)) : option nat :=
  match fs with
  | [] => None
  | f :: fs' => if String.eqb (Name f) name then Some i
                else direct (S i) fs'
  end.

End Fields.

(** How deep structs are embedded in one another. *)
Fixpoint depth {T : Type} (f : StructField T) : nat :=
  match f with
  | mkField _ _ _ (Some sub) =>
    S ((fix deepest (l : list (StructField T)) : nat :=
          match l with
          | [] => O
          | g :: l' => Nat.max (depth g) (deepest l')
          end) sub)
  | mkField _ _ _ None => O
  end.

(** The names a lookup can meet: the one of the field and, through an
    embedded struct, the ones of its fields. *)
Fixpoint reach {T : Type} (f : StructField T) : list string :=
  match f with
  | mkField n true _ (Some sub) =>
    n :: (fix all (l : list (StructField T)) : list string :=
            match l with
            | [] => []
            | g :: l' => (reach g ++ all l')%list
            end) sub
  | mkField n _ _ _ => [n]
  end.

Definition reach_all {T : Type} (fs : list (StructField T)) : list string :=
  flat_map reach fs.

(** Every name a lookup can meet in [fs] is one of [U]. *)
Definition covered {T : Type} (U : list string)
    (fs : list (StructField T)) : Prop :=
  incl (reach_all fs) U.

Definition level_covered {T : Type} (U : list string)
    (l : list (fieldScan T)) : Prop :=
  Forall (fun sc => covered U (snd sc)) l.

Definition hasEmbeds {T : Type} (fs : list (StructField T)) : bool :=
  existsb (@Anonymous T) fs.

(** [t.FieldByName(name)]: the index sequence of the field, if any. *)
Definition FieldByName {T : Type} (fs : list (StructField T))
    (name : string) : option (list nat) :=
  if String.eqb name "" then None
  else
    match direct name 0 fs with
    | Some i => Some [i]
    | None =>
      if hasEmbeds fs
      then search name (S (fold_right Nat.max O (map depth fs))) [([], fs)]
      else None
    end.

(** [v.FieldByIndex(index)] on a struct value: it panics when an index
    is out of range or steps into a value that is not a struct. *)
Fixpoint FieldByIndex {T : Type} (fs : list (StructField T))
    (self : T -> Value) (index : list nat) : go (T -> Value) :=
  match index with
  | [] => Return self
  | i :: index' =>
    match nth_error fs i with
    | None => Panic (reflect_panic "reflect: Field index out of range")
    | Some f =>
      match index' with
      | [] => Return (read f)
      | _ :: _ =>
        match fields f with
        | Some sub => FieldByIndex sub (read f) index'
        | None =>
          Panic (reflect_panic "reflect: call of reflect.Value.Field on a value that is not a struct")
        end
      end
    end
  end.

End reflect.

(* ================================================================== *)
(** * post.go: GetProperty *)
(* ================================================================== *)

Section PostReflection.

Variable fmt_rest : string -> list string -> string.
Variable C : Type.

Definition MiniPost_of (p : Post.t C) : MiniPost.t :=
  PostRef.MiniPost (Post.PostRef p).

(** A field that is read off the post by [e]. *)
Definition field {A : Type} (name : string) (anonymous : bool)
    (e : Post.t C -> A)
    (fields : option (list (reflect.StructField (Post.t C))))
  : reflect.StructField (Post.t C) :=
  reflect.mkField name anonymous (fun p => reflect.ValueOf (e p)) fields.

(** [reflect.TypeOf(p).Elem()]: the struct type [Post], field by field
    in the order of the declarations. *)
Definition MiniPost_fields : list (reflect.StructField (Post.t C)) :=
  [ field "Id" false (fun p => MiniPost.Id (MiniPost_of p)) None;
    field "Type" false (fun p => MiniPost.Type_ (MiniPost_of p)) None;
    field "BlogName" false (fun p => MiniPost.BlogName (MiniPost_of p)) None;
    field "ReblogKey" false (fun p => MiniPost.ReblogKey (MiniPost_of p)) None ].

Definition PostRef_fields : list (reflect.StructField (Post.t C)) :=
  [ field "MiniPost" true (MiniPost_of) (Some MiniPost_fields);
    field "client" false (fun p => PostRef.client (Post.PostRef p)) None ].

Definition Reblog_fields : list (reflect.StructField (Post.t C)) :=
  [ field "Comment" false (fun p => Reblog.Comment (Post.Reblog p)) None;
    field "TreeHTML" false (fun p => Reblog.TreeHTML (Post.Reblog p)) None ].

Definition Post_fields : list (reflect.StructField (Post.t C)) :=
  [ field "PostRef" true (@Post.PostRef C) (Some PostRef_fields);
    field "Body" false (@Post.Body C) None;
    field "CanLike" false (@Post.CanLike C) None;
    field "CanReblog" false (@Post.CanReblog C) None;
    field "CanReply" false (@Post.CanReply C) None;
    field "CanSendInMessage" false (@Post.CanSendInMessage C) None;
    field "Caption" false (@Post.Caption C) None;
    field "Date" false (@Post.Date C) None;
    field "DisplayAvatar" false (@Post.DisplayAvatar C) None;
    field "Followed" false (@Post.Followed C) None;
    field "Format" false (@Post.Format C) None;
    field "Highlighted" false (@Post.Highlighted C) None;
    field "Liked" false (@Post.Liked C) None;
    field "NoteCount" false (@Post.NoteCount C) None;
    field "PermalinkUrl" false (@Post.PermalinkUrl C) None;
    field "PostUrl" false (@Post.PostUrl C) None;
    field "Reblog" false (@Post.Reblog C) (Some Reblog_fields);
    field "Notes" false (@Post.Notes C) None;
    field "RecommendedColor" false (@Post.RecommendedColor C) None;
    field "RecommendedSource" false (@Post.RecommendedSource C) None;
    field "ShortUrl" false (@Post.ShortUrl C) None;
    field "Slug" false (@Post.Slug C) None;
    field "SourceTitle" false (@Post.SourceTitle C) None;
    field "SourceUrl" false (@Post.SourceUrl C) None;
    field "State" false (@Post.State C) None;
    field "Summary" false (@Post.Summary C) None;
    field "Tags" false (@Post.Tags C) None;
    field "Timestamp" false (@Post.Timestamp C) None;
    field "FeaturedTimestamp" false (@Post.FeaturedTimestamp C) None;
    field "TrackName" false (@Post.TrackName C) None;
    field "Content" false (@Post.Content C) None;
    field "Trail" false (@Post.Trail C) None ].

(** [func (p *Post) GetProperty(key string) (interface{}, error)], on the
    post [p] points to.  The first result is the [reflect.Value] of the
    field, boxed in the interface; [None] is the nil interface. *)
Definition GetProperty (p : Post.t C) (key : string)
  : go (option reflect.Value * option error) :=
  match reflect.FieldByName Post_fields key with
  | Some index =>
    match reflect.FieldByIndex Post_fields
            (fun p => reflect.ValueOf p) index with
    | Return field_of => Return (Some (field_of p), None)
    | Panic e => Panic e
    end
  | None =>
    Return (None,
            Some (errors_New
                    (Sprintf fmt_rest "Property %s does not exist" [key])))
  end.

(** The fields a selector [p.key] can name, each with the value the
    selector denotes: the fields of [Post], of the embedded [PostRef] and
    of the [MiniPost] embedded in it. *)
Definition Post_selectors : list (string * (Post.t C -> reflect.Value)) :=
  map (fun f => (reflect.Name f, reflect.read f))
      (Post_fields ++ PostRef_fields ++ MiniPost_fields)%list.

Fixpoint selector (l : list (string * (Post.t C -> reflect.Value)))
    (key : string) : option (Post.t C -> reflect.Value) :=
  match l with
  | [] => None
  | (n, sel) :: l' => if String.eqb n key then Some sel else selector l' key
  end.



End PostReflection.

(* ================================================================== *)
(** * encoding/json: decoding into and encoding from the structs *)
(* ================================================================== *)

Module jsonstruct.

Inductive kind : Type := kString | kBool | kInt64 | kUint64.

(** The shape of a decoding target: a field of a basic kind, a struct with
    its tagged fields in the order of the declaration, a slice, or a field
    whose type is beyond this model (the model refuses every value written
    to it, [null] apart). *)
Inductive schema : Type :=
| Scalar (k : kind)
| Struct (fields : list (string * schema))
| Slice (elem : schema)
| Beyond.

Definition int64_range (z : Z) : bool :=
  ((- 2 ^ 63 <=? z) && (z <? 2 ^ 63))%Z.

Definition as_string (v : json.Value) : option string :=
  match v with json.Str s => Some s | _ => None end.
Definition as_bool (v : json.Value) : option bool :=
  match v with json.Bool b => Some b | _ => None end.
Definition as_int64 (v : json.Value) : option Z :=
  match v with
  | json.Number z => if int64_range z then Some z else None
  | _ => None
  end.

Definition is_some {A : Type} (o : option A) : bool :=
  match o with Some _ => true | None => false end.

Definition uint64_range (z : Z) : bool :=
  ((0 <=? z) && (z <? 2 ^ 64))%Z.

Definition as_uint64 (v : json.Value) : option Z :=
  match v with
  | json.Number z => if uint64_range z then Some z else None
  | _ => None
  end.

Definition accepts (k : kind) (v : json.Value) : bool :=
  match k with
  | kString => is_some (as_string v)
  | kBool => is_some (as_bool v)
  | kInt64 => is_some (as_int64 v)
  | kUint64 => is_some (as_uint64 v)
  end.

(** The first error among the elements of a list. *)
Fixpoint first_error {A : Type} (f : A -> option error) (l : list A)
  : option error :=
  match l with
  | [] => None
  | x :: l' =>
    match f x with
    | Some e => Some e
    | None => first_error f l'
    end
  end.

(** The schema of the field with tag [t], handed to [f]. *)
Fixpoint pick (f : schema -> option error) (t : string)
    (fs : list (string * schema)) : option error :=
  match fs with
  | [] => None
  | (t', s') :: fs' => if String.eqb t' t then f s' else pick f t fs'
  end.


Section Decode.

(** [foldName] of the standard library: two keys are the same but for
    case when their folds are equal. *)
Variable foldName : string -> string.

(** The field a key of the object selects: the one whose tag is the
    key, or else the first one whose tag equals it but for case. *)
Definition field_of_key (tags : list string) (key : string)
  : option string :=
  match find (String.eqb key) tags with
  | Some t => Some t
  | None => find (fun t => String.eqb (foldName t) (foldName key)) tags
  end.

Definition selects (tags : list string) (tag key : string) : bool :=
  match field_of_key tags key with
  | Some t => String.eqb t tag
  | None => false
  end.

(** The members are decoded one after the other, each into the field
    its key selects: a field of a basic kind ends up with the last
    value it accepted ([null] and values of another type leave it as
    it is). *)
Definition scalar {A : Type} (conv : json.Value -> option A)
    (tags : list string) (tag : string) (zero : A)
    (ms : list (string * json.Value)) : A :=
  fold_left
    (fun acc m =>
       if selects tags tag (fst m)
       then match conv (snd m) with Some a => a | None => acc end
       else acc)
    ms zero.

(** A field of a struct type receives, in order, the members of every
    object written to it. *)
Definition nested (tags : list string) (tag : string)
    (ms : list (string * json.Value)) : list (string * json.Value) :=
  flat_map
    (fun m =>
       if selects tags tag (fst m)
       then match snd m with json.Object ms' => ms' | _ => [] end
       else [])
    ms.

(** The error [Unmarshal] returns: the first value, in the order of the
    text, that its target does not accept. *)
Fixpoint mismatch (s : schema) (tag : string) (v : json.Value) {struct s}
  : option error :=
  match s with
  | Scalar k =>
    match v with
    | json.Null => None
    | _ => if accepts k v then None else Some (json.UnmarshalTypeError tag)
    end
  | Struct fs =>
    match v with
    | json.Null => None
    | json.Object ms =>
      first_error
        (fun m =>
           match field_of_key (map fst fs) (fst m) with
           | None => None
           | Some t => pick (fun s' => mismatch s' t (snd m)) t fs
           end)
        ms
    | _ => Some (json.UnmarshalTypeError tag)
    end
  | Slice s' =>
    match v with
    | json.Null => None
    | json.Array vs => first_error (mismatch s' tag) vs
    | _ => Some (json.UnmarshalTypeError tag)
    end
  | Beyond =>
    match v with
    | json.Null => None
    | _ => Some json.Unsupported
    end
  end.

(** A field of a slice type ends up with the last array written to it,
    one fresh element per value, or nil after a [null]. *)
Definition sliceOf {A : Type} (elem : json.Value -> A)
    (tags : list string) (tag : string) (zero : slice A)
    (ms : list (string * json.Value)) : slice A :=
  fold_left
    (fun acc m =>
       if selects tags tag (fst m)
       then match snd m with
            | json.Array vs => Some (map elem vs)
            | json.Null => None
            | _ => acc
            end
       else acc)
    ms zero.

Definition members_of (v : json.Value) : list (string * json.Value) :=
  match v with json.Object ms => ms | _ => [] end.

(** The value an object holds for a field: the last one, other than
    [null], among the members that select the field. *)
Definition populated (tags : list string) (tag : string)
    (ms : list (string * json.Value)) : option json.Value :=
  fold_left
    (fun acc m =>
       if selects tags tag (fst m)
       then match snd m with json.Null => acc | v => Some v end
       else acc)
    ms None.

(* -------------------------------------------------------------- *)
(** ** NpfMedia and [[]NpfMedia] *)

Definition NpfMedia_schema : list (string * schema) :=
  [ ("type", Scalar kString); ("url", Scalar kString);
    ("width", Scalar kInt64); ("height", Scalar kInt64) ].

Definition into_NpfMedia (m : NpfMedia.t)
    (ms : list (string * json.Value)) : NpfMedia.t :=
  let tags := map fst NpfMedia_schema in
  NpfMedia.mk
    (scalar as_string tags "type" (NpfMedia.Type_ m) ms)
    (scalar as_string tags "url" (NpfMedia.Url m) ms)
    (scalar as_int64 tags "width" (NpfMedia.Width m) ms)
    (scalar as_int64 tags "height" (NpfMedia.Height m) ms).

(** [json.Unmarshal(data, &media)] *)
Definition Unmarshal_NpfMedia (data : list byte) (m : NpfMedia.t)
  : NpfMedia.t * option error :=
  match json.parse data with
  | inl e => (m, Some e)
  | inr v =>
    (into_NpfMedia m (members_of v),
     mismatch (Struct NpfMedia_schema) "" v)
  end.

(** [json.Unmarshal(data, &mediaCollection)] into a slice of length 0:
    an array gives one fresh element per value, [null] the nil slice. *)
Definition Unmarshal_NpfMedia_slice (data : list byte)
    (s : slice NpfMedia.t) : slice NpfMedia.t * option error :=
  match json.parse data with
  | inl e => (s, Some e)
  | inr json.Null => (None, None)
  | inr (json.Array vs) =>
    (Some (map (fun v => into_NpfMedia NpfMedia.zero (members_of v)) vs),
     first_error (mismatch (Struct NpfMedia_schema) EmptyString) vs)
  | inr _ => (s, Some (json.UnmarshalTypeError ""))
  end.

(* -------------------------------------------------------------- *)
(** ** Blog and its envelope *)

Definition Blog_schema : list (string * schema) :=
  [ ("name", Scalar kString); ("url", Scalar kString);
    ("title", Scalar kString); ("posts", Scalar kInt64);
    ("ask", Scalar kBool); ("ask_anon", Scalar kBool);
    ("ask_page_title", Scalar kString);
    ("can_send_fan_mail", Scalar kBool); ("can_submit", Scalar kBool);
    ("can_subscribe", Scalar kBool); ("description", Scalar kString);
    ("followed", Scalar kBool); ("is_blocked_from_primary", Scalar kBool);
    ("is_nsfw", Scalar kBool); ("share_likes", Scalar kBool);
    ("submission_page_title", Scalar kString);
    ("subscribed", Scalar kBool); ("total_posts", Scalar kInt64);
    ("updated", Scalar kInt64); ("uuid", Scalar kString) ].

Definition Blog_tags : list string := map fst Blog_schema.

(** The exported fields of [b] after the members [ms] are decoded into
    it; the unexported [client] is not touched. *)
Definition into_Blog {C : Type} (b : Blog.t C)
    (ms : list (string * json.Value)) : Blog.t C :=
  let str := scalar as_string Blog_tags in
  let boolean := scalar as_bool Blog_tags in
  let int := scalar as_int64 Blog_tags in
  Blog.mk
    (BlogRef.mk (BlogRef.client (Blog.BlogRef b))
                (str "name" (BlogRef.Name (Blog.BlogRef b)) ms))
    (str "url" (Blog.Url b) ms)
    (str "title" (Blog.Title b) ms)
    (int "posts" (Blog.Posts b) ms)
    (boolean "ask" (Blog.Ask b) ms)
    (boolean "ask_anon" (Blog.AskAnon b) ms)
    (str "ask_page_title" (Blog.AskAnonPageTitle b) ms)
    (boolean "can_send_fan_mail" (Blog.CanSendFanMail b) ms)
    (boolean "can_submit" (Blog.CanSubmit b) ms)
    (boolean "can_subscribe" (Blog.CanSubscribe b) ms)
    (str "description" (Blog.Description b) ms)
    (boolean "followed" (Blog.Followed b) ms)
    (boolean "is_blocked_from_primary" (Blog.IsBlockedFromPrimary b) ms)
    (boolean "is_nsfw" (Blog.IsNSFW b) ms)
    (boolean "share_likes" (Blog.ShareLikes b) ms)
    (str "submission_page_title" (Blog.SubmissionPageTitle b) ms)
    (boolean "subscribed" (Blog.Subscribed b) ms)
    (int "total_posts" (Blog.TotalPosts b) ms)
    (int "updated" (Blog.Updated b) ms)
    (str "uuid" (Blog.UUID b) ms).

Definition blogEnvelope_schema : schema :=
  Struct [("response", Struct [("blog", Struct Blog_schema)])].

(** The members that reach the blog of the envelope. *)
Definition blog_members (v : json.Value) : list (string * json.Value) :=
  nested ["blog"] "blog" (nested ["response"] "response" (members_of v)).

(** The value [v] of a text decoded into the envelope [e]. *)
Definition decode_blogEnvelope {C : Type} (v : json.Value)
    (e : blogEnvelope.t C) : blogEnvelope.t C * option error :=
  (blogEnvelope.mk
     (blogEnvelope.mk_inner
        (into_Blog (blogEnvelope.Blog (blogEnvelope.Response e))
                   (blog_members v))),
   mismatch blogEnvelope_schema "" v).

(** [json.Unmarshal(response.body, &blog)], over the function [parse]
    that reads a text: a text that is not JSON is an error and leaves the
    envelope as it is, any other is decoded from its value. *)
Definition Unmarshal_blogEnvelope_with {C : Type}
    (parse : list byte -> error + json.Value) (data : list byte)
    (e : blogEnvelope.t C) : blogEnvelope.t C * option error :=
  match parse data with
  | inl err => (e, Some err)
  | inr v => decode_blogEnvelope v e
  end.

(** The same with the parser of the reference model. *)
Definition Unmarshal_blogEnvelope {C : Type} (data : list byte)
    (e : blogEnvelope.t C) : blogEnvelope.t C * option error :=
  Unmarshal_blogEnvelope_with json.parse data e.

(* ------------------------------------------------------------------ *)
(** ** Posts and its envelope *)

(** The fields of a [Post] by tag; the promoted fields of the embedded
    [MiniPost] come first. *)
Definition Post_schema : list (string * schema) :=
  [ ("id", Scalar kUint64); ("type", Scalar kString);
    ("blog_name", Scalar kString); ("reblog_key", Scalar kString);
    ("body", Scalar kString); ("can_like", Scalar kBool);
    ("can_reblog", Scalar kBool); ("can_reply", Scalar kBool);
    ("can_send_in_message", Scalar kBool); ("caption", Scalar kString);
    ("date", Scalar kString); ("display_avatar", Scalar kBool);
    ("followed", Scalar kBool); ("format", Scalar kString);
    ("highlighted", Beyond); ("liked", Scalar kBool);
    ("note_count", Scalar kUint64); ("permalink_url", Scalar kString);
    ("post_url", Scalar kString); ("reblog", Beyond); ("notes", Beyond);
    ("recommended_color", Scalar kString);
    ("recommended_source", Scalar kBool); ("short_url", Scalar kString);
    ("slug", Scalar kString); ("source_title", Scalar kString);
    ("source_url", Scalar kString); ("state", Scalar kString);
    ("summary", Scalar kString); ("tags", Beyond);
    ("timestamp", Scalar kUint64); ("featured_timestamp", Scalar kUint64);
    ("track_name", Scalar kString); ("content", Beyond);
    ("trail", Beyond) ].

Definition Post_tags : list string := map fst Post_schema.

(** A fresh [Post] after the members [ms] are decoded into it. *)
Definition new_Post {C : Type} (ms : list (string * json.Value)) : Post.t C :=
  let str := fun tag => scalar as_string Post_tags tag "" ms in
  let boolean := fun tag => scalar as_bool Post_tags tag false ms in
  let uint := fun tag => scalar as_uint64 Post_tags tag 0%Z ms in
  Post.mk
    (PostRef.mk
       (MiniPost.mk (uint "id") (str "type") (str "blog_name")
                    (str "reblog_key"))
       None)
    (str "body") (boolean "can_like") (boolean "can_reblog")
    (boolean "can_reply") (boolean "can_send_in_message") (str "caption")
    (str "date") (boolean "display_avatar") (boolean "followed")
    (str "format") None (boolean "liked") (uint "note_count")
    (str "permalink_url") (str "post_url") Reblog.zero None
    (str "recommended_color") (boolean "recommended_source")
    (str "short_url") (str "slug") (str "source_title") (str "source_url")
    (str "state") (str "summary") None (uint "timestamp")
    (uint "featured_timestamp") (str "track_name") None None.

Definition Posts_schema : list (string * schema) :=
  [ ("posts", Slice (Struct Post_schema)); ("total_posts", Scalar kInt64) ].

Definition postsEnvelope_schema : schema :=
  Struct [("response", Struct Posts_schema)].

(** [json.Unmarshal(response.body, &posts)] *)
Definition Unmarshal_postsEnvelope {C : Type} (data : list byte)
    (e : postsEnvelope.t C) : postsEnvelope.t C * option error :=
  match json.parse data with
  | inl err => (e, Some err)
  | inr v =>
    let R := postsEnvelope.Response e in
    let ms := nested ["response"] "response" (members_of v) in
    let tags := map fst Posts_schema in
    (postsEnvelope.mk
       (Posts.mk (Posts.client R) (Posts.response R)
          (sliceOf (fun v' => new_Post (members_of v')) tags "posts"
                   (Posts.Posts R) ms)
          (scalar as_int64 tags "total_posts" (Posts.TotalPosts R) ms)),
     mismatch postsEnvelope_schema "" v)
  end.

(* ------------------------------------------------------------------ *)
(** ** The body of a response *)

(** Modelled from the spec: [PopulateFromBody] is declared outside the two
    source files.  It is the parsing of the body (looking for a location
    key) of an envelope with a response member: the members of the
    response become [Result], and bytes that are not valid JSON give the
    error of the decoder. *)
Definition PopulateFromBody (r : Response.t) : Response.t * option error :=
  match json.parse (Response.body r) with
  | inl err => (r, Some err)
  | inr v =>
    (Response.mk (Response.body r) (Response.Headers r)
       (Some (nested ["response"] "response" (members_of v))),
     mismatch (Struct [("response", Struct [])]) "" v)
  end.

End Decode.

(** The part of [foldName] that concerns ASCII letters: lower case
    letters become upper case. *)
Definition fold_ascii_char (c : ascii) : ascii :=
  let n := nat_of_ascii c in
  if ((97 <=? n) && (n <=? 122))%nat then ascii_of_nat (n - 32) else c.

Fixpoint fold_ascii (s : string) : string :=
  match s with
  | EmptyString => EmptyString
  | String c s' => String (fold_ascii_char c) (fold_ascii s')
  end.

(* ---------------------------------------------------------------- *)
(** ** Encoding a Blog *)

(** [json.Marshal] of a [Blog]: one member per exported field, under its
    tag, in the order of the declaration; the promoted [Name] of the
    embedded [BlogRef] comes first. *)
Definition Marshal_Blog {C : Type} (b : Blog.t C) : json.Value :=
  json.Object
    [ ("name", json.Str (BlogRef.Name (Blog.BlogRef b)));
      ("url", json.Str (Blog.Url b));
      ("title", json.Str (Blog.Title b));
      ("posts", json.Number (Blog.Posts b));
      ("ask", json.Bool (Blog.Ask b));
      ("ask_anon", json.Bool (Blog.AskAnon b));
      ("ask_page_title", json.Str (Blog.AskAnonPageTitle b));
      ("can_send_fan_mail", json.Bool (Blog.CanSendFanMail b));
      ("can_submit", json.Bool (Blog.CanSubmit b));
      ("can_subscribe", json.Bool (Blog.CanSubscribe b));
      ("description", json.Str (Blog.Description b));
      ("followed", json.Bool (Blog.Followed b));
      ("is_blocked_from_primary", json.Bool (Blog.IsBlockedFromPrimary b));
      ("is_nsfw", json.Bool (Blog.IsNSFW b));
      ("share_likes", json.Bool (Blog.ShareLikes b));
      ("submission_page_title", json.Str (Blog.SubmissionPageTitle b));
      ("subscribed", json.Bool (Blog.Subscribed b));
      ("total_posts", json.Number (Blog.TotalPosts b));
      ("updated", json.Number (Blog.Updated b));
      ("uuid", json.Str (Blog.UUID b)) ].

End jsonstruct.

(* ================================================================== *)
(** * tumblelog.go: a blog as JSON *)
(* ================================================================== *)

(** Modelled from the spec: [jsonStringify] is declared outside the two
    source files; it is the method that "re-encodes the entity back to
    JSON".  The text is taken up to its formatting: as the JSON value it
    denotes. *)
Definition jsonStringify {C : Type} (b : Blog.t C) : json.Value :=
  jsonstruct.Marshal_Blog b.

(** [func (b *Blog) String() string] *)
Definition Blog_String {C : Type} (b : Blog.t C) : json.Value :=
  jsonStringify b.

(* ================================================================== *)
(** * Reference instances *)
(* ================================================================== *)

(** The decoders of the reference model, with the folding of ASCII
    letters. *)
Definition ref_NpfMedia := jsonstruct.Unmarshal_NpfMedia jsonstruct.fold_ascii.
Definition ref_NpfMedia_slice :=
  jsonstruct.Unmarshal_NpfMedia_slice jsonstruct.fold_ascii.
Definition ref_posts {C : Type} :=
  @jsonstruct.Unmarshal_postsEnvelope jsonstruct.fold_ascii C.
Definition ref_blog {C : Type} :=
  @jsonstruct.Unmarshal_blogEnvelope jsonstruct.fold_ascii C.
Definition ref_PopulateFromBody :=
  jsonstruct.PopulateFromBody jsonstruct.fold_ascii.

(** A client for the examples: it answers every request with the reply it
    was made with, and the world counts the requests. *)
Module mock.
Record t : Type := mk { reply : Response.t * option error }.
Definition Get (c : t) (path : string) (w : nat)
  : (Response.t * option error) * nat := (reply c, S w).
Definition GetWithParams (c : t) (path : string) (params : Values) (w : nat)
  : (Response.t * option error) * nat := (reply c, S w).
Definition answers (body : string) (headers : Header.t) : t :=
  mk (Response.mk (text body) headers None, None).
End mock.

Definition mock_GetPosts :=
  GetPosts (fun _ _ => "") mock.GetWithParams (@ref_posts mock.t).
Definition mock_GetAvatar :=
  GetAvatar (fun _ _ => "") mock.Get ref_PopulateFromBody.

(* ================================================================== *)
(** * Facts about strings and formats *)
(* ================================================================== *)

Lemma HasPrefix_nil (s : string) : strings.HasPrefix s "" = true.
Proof. destruct s; reflexivity. Qed.

Lemma Contains_app_r (a b sub : string) :
  strings.Contains b sub = true -> strings.Contains (a ++ b) sub = true.
Proof.
  intros Hb. induction a as [|c a IH]; simpl.
  - exact Hb.
  - change (strings.HasPrefix (String c (a ++ b)) sub
            || strings.Contains (a ++ b) sub = true).
    rewrite IH. apply orb_true_r.
Qed.

Lemma append_nil_r (s : string) : s ++ "" = s.
Proof. induction s as [|c s IH]; simpl; [reflexivity | now rewrite IH]. Qed.

Lemma append_assoc (a b c : string) : (a ++ b) ++ c = a ++ (b ++ c).
Proof. induction a as [|x a IH]; simpl; [reflexivity | now rewrite IH]. Qed.

Section FmtFacts.

Variable fmt_rest : string -> list string -> string.

(** Text without a percent sign is copied. *)
Lemma doPrintf_text (pre rest : string) (a : list string) :
  strings.ContainsByte pre "%" = false ->
  doPrintf fmt_rest (pre ++ rest) a = pre ++ doPrintf fmt_rest rest a.
Proof.
  induction pre as [|c pre IH]; intros Hpre; simpl in *.
  - reflexivity.
  - apply orb_false_iff in Hpre. destruct Hpre as [Hc Hpre].
    rewrite Hc. now rewrite IH.
Qed.

Lemma doPrintf_no_operand (s : string) :
  strings.ContainsByte s "%" = false -> doPrintf fmt_rest s [] = s.
Proof.
  intros Hs. rewrite <- (append_nil_r s) at 1.
  rewrite doPrintf_text by exact Hs. simpl. apply append_nil_r.
Qed.

(** One [%s] between two texts is replaced by the operand. *)
Lemma Sprintf_one_placeholder (pre post x : string) :
  strings.ContainsByte pre "%" = false ->
  strings.ContainsByte post "%" = false ->
  Sprintf fmt_rest (pre ++ "%s" ++ post) [x] = pre ++ x ++ post.
Proof.
  intros Hpre Hpost. unfold Sprintf.
  rewrite doPrintf_text by exact Hpre. simpl.
  now rewrite doPrintf_no_operand.
Qed.

Lemma normalizeBlogName_cases (name : string) :
  normalizeBlogName fmt_rest name =
  if strings.Contains name "." then name else name ++ ".tumblr.com".
Proof.
  unfold normalizeBlogName.
  destruct (strings.Contains name "."); simpl; reflexivity.
Qed.

(** C5: for every blog identifier, path building puts the normalized
    identifier in the place of the placeholder of the template; the
    identifier is normalized by appending [.tumblr.com] when it contains
    no dot and is used as it is otherwise; in particular the template
    [/blog/%s/info] gives [/blog/foo.tumblr.com/info] for [foo] and
    [/blog/foo.example.com/info] for [foo.example.com]. *)
Theorem blogPath_substitutes (pre post name : string) :
  strings.ContainsByte pre "%" = false ->
  strings.ContainsByte post "%" = false ->
  blogPath fmt_rest (pre ++ "%s" ++ post) name =
    pre ++ normalizeBlogName fmt_rest name ++ post
  /\ normalizeBlogName fmt_rest name =
     (if strings.Contains name "." then name else name ++ ".tumblr.com")
  /\ blogPath fmt_rest "/blog/%s/info" "foo" = "/blog/foo.tumblr.com/info"
  /\ blogPath fmt_rest "/blog/%s/info" "foo.example.com" =
     "/blog/foo.example.com/info".
Proof.
  intros Hpre Hpost. repeat split.
  - unfold blogPath. now apply Sprintf_one_placeholder.
  - apply normalizeBlogName_cases.
Qed.

(** C10: normalizing a blog name twice is normalizing it once, because
    the suffix that the first pass appends contains a dot. *)
Theorem normalizeBlogName_idempotent (s : string) :
  normalizeBlogName fmt_rest (normalizeBlogName fmt_rest s) =
  normalizeBlogName fmt_rest s.
Proof.
  rewrite (normalizeBlogName_cases s).
  destruct (strings.Contains s ".") eqn:Hdot.
  - rewrite normalizeBlogName_cases. now rewrite Hdot.
  - rewrite normalizeBlogName_cases.
    now rewrite (Contains_app_r s ".tumblr.com" ".").
Qed.

End FmtFacts.

Lemma blogPath_substitutes_witness :
  blogPath (fun _ _ => "") ("/blog/" ++ "%s" ++ "/posts") "staff" =
    "/blog/" ++ normalizeBlogName (fun _ _ => "") "staff" ++ "/posts"
  /\ normalizeBlogName (fun _ _ => "") "staff" = "staff.tumblr.com".
Proof.
  destruct (@blogPath_substitutes (fun _ _ => "") "/blog/" "/posts" "staff")
    as (Hpath & Hname & _); [reflexivity | reflexivity | ].
  split; [exact Hpath | exact Hname].
Defined.

(* ================================================================== *)
(** * The NPF media container *)
(* ================================================================== *)

Section MediaFacts.

Variable json_Unmarshal_NpfMedia :
  list byte -> NpfMedia.t -> NpfMedia.t * option error.
Variable json_Unmarshal_NpfMedia_slice :
  list byte -> slice NpfMedia.t -> slice NpfMedia.t * option error.

Local Notation "'decode'" :=
  (UnmarshalJSON json_Unmarshal_NpfMedia json_Unmarshal_NpfMedia_slice).

(** The object branch: what the decoder of a single descriptor gives is
    stored, the collection is not touched. *)
Lemma UnmarshalJSON_object (n : NpfMediaContainer.t) (rest : list byte)
      (m : NpfMedia.t) :
  json_Unmarshal_NpfMedia ("{"%byte :: rest) NpfMedia.zero = (m, None) ->
  decode n ("{"%byte :: rest) =
  Return (NpfMediaContainer.mk m (MediaCollection n) false, None).
Proof.
  intros Hm. unfold UnmarshalJSON. simpl. now rewrite Hm.
Qed.

(** The array branch: the decoded slice is stored, the single descriptor
    is not touched. *)
Lemma UnmarshalJSON_array (n : NpfMediaContainer.t) (rest : list byte)
      (ms : slice NpfMedia.t) :
  json_Unmarshal_NpfMedia_slice ("["%byte :: rest) make_slice = (ms, None) ->
  decode n ("["%byte :: rest) =
  Return (NpfMediaContainer.mk (Media n) ms true, None).
Proof.
  intros Hms. unfold UnmarshalJSON. simpl. now rewrite Hms.
Qed.

(** Any other first byte: the shape error, and the container as it was. *)
Lemma UnmarshalJSON_other (n : NpfMediaContainer.t) (b : byte)
      (rest : list byte) :
  b <> "["%byte -> b <> "{"%byte ->
  decode n (b :: rest) = Return (n, Some shape_error).
Proof.
  intros Harr Hobj. unfold UnmarshalJSON.
  destruct (Byte.eqb b "["%byte) eqn:E1.
  - apply Byte.byte_dec_bl in E1. contradiction.
  - destruct (Byte.eqb b "{"%byte) eqn:E2.
    + apply Byte.byte_dec_bl in E2. contradiction.
    + reflexivity.
Qed.

(** A failure of the decoder of the standard library is returned, and
    the container is as it was. *)
Lemma UnmarshalJSON_error_keeps (n n' : NpfMediaContainer.t)
      (data : list byte) (e : error) :
  decode n data = Return (n', Some e) -> n' = n.
Proof.
  unfold UnmarshalJSON. destruct data as [|b rest]; [discriminate|].
  destruct (Byte.eqb b "["%byte).
  - destruct (json_Unmarshal_NpfMedia_slice (b :: rest) make_slice)
      as [ms [err|]]; intros H; inversion H; reflexivity.
  - destruct (Byte.eqb b "{"%byte).
    + destruct (json_Unmarshal_NpfMedia (b :: rest) NpfMedia.zero)
        as [m [err|]]; intros H; inversion H; reflexivity.
    + intros H; inversion H; reflexivity.
Qed.

(** C1: on a valid media value that starts with an opening brace the
    decoder stores the descriptor in [Media], leaves [MediaCollection] as
    it was (empty, in a container that starts at its zero value) and sets
    [IsArray] to false; on a valid one that starts with an opening
    bracket, the empty array included, it stores the slice in
    [MediaCollection], leaves [Media] as it was (its zero value) and sets
    [IsArray] to true. *)
Theorem UnmarshalJSON_shapes (n : NpfMediaContainer.t) (rest : list byte) :
  (forall m,
      json_Unmarshal_NpfMedia ("{"%byte :: rest) NpfMedia.zero = (m, None) ->
      decode n ("{"%byte :: rest) =
        Return (NpfMediaContainer.mk m (MediaCollection n) false, None)
      /\ decode NpfMediaContainer.zero ("{"%byte :: rest) =
        Return (NpfMediaContainer.mk m None false, None))
  /\
  (forall ms,
      json_Unmarshal_NpfMedia_slice ("["%byte :: rest) make_slice
      = (ms, None) ->
      decode n ("["%byte :: rest) =
        Return (NpfMediaContainer.mk (Media n) ms true, None)
      /\ decode NpfMediaContainer.zero ("["%byte :: rest) =
        Return (NpfMediaContainer.mk NpfMedia.zero ms true, None)).
Proof.
  split.
  - intros m Hm. split.
    + now apply UnmarshalJSON_object.
    + now apply (UnmarshalJSON_object NpfMediaContainer.zero).
  - intros ms Hms. split.
    + now apply UnmarshalJSON_array.
    + now apply (UnmarshalJSON_array NpfMediaContainer.zero).
Qed.

(** C2, at the empty input: the decoder reads [data[0]] before anything
    else, and that panics when there is no byte; no error is returned. *)
Theorem UnmarshalJSON_empty_input_panics (n : NpfMediaContainer.t) :
  decode n [] = Panic (index_out_of_range 0 0).
Proof. reflexivity. Qed.

(** C4, as the code has it: the decoder looks at the first byte of the
    value and skips nothing; when that byte is white space, whatever
    follows it, the call fails with the shape error and the container is
    as it was. *)
Theorem UnmarshalJSON_leading_space (n : NpfMediaContainer.t) (b : byte)
        (rest : list byte) :
  json.is_space b = true ->
  decode n (b :: rest) = Return (n, Some shape_error).
Proof.
  intros Hsp. apply UnmarshalJSON_other; intros ->; discriminate Hsp.
Qed.

(** C3: a container that was decoded with success from the zero value
    holds exactly one of the two: either the flag is true, the collection
    is the decoded slice (not nil) and the single descriptor is at its
    zero value; or the flag is false, the single descriptor is the
    decoded one and the collection is nil. *)
Theorem UnmarshalJSON_invariant (data : list byte)
        (n : NpfMediaContainer.t) :
  array_fills_slice json_Unmarshal_NpfMedia_slice ->
  decode NpfMediaContainer.zero data = Return (n, None) ->
  (IsArray n = true
   /\ MediaCollection n <> None
   /\ json_Unmarshal_NpfMedia_slice data make_slice = (MediaCollection n, None)
   /\ Media n = NpfMedia.zero)
  \/
  (IsArray n = false
   /\ json_Unmarshal_NpfMedia data NpfMedia.zero = (Media n, None)
   /\ MediaCollection n = None).
Proof.
  intros Hfill. unfold UnmarshalJSON.
  destruct data as [|b rest]; [discriminate|].
  destruct (Byte.eqb b "["%byte) eqn:E1.
  - apply Byte.byte_dec_bl in E1. subst b.
    destruct (json_Unmarshal_NpfMedia_slice ("["%byte :: rest) make_slice)
      as [ms [err|]] eqn:Hms; intros H; inversion H; subst; clear H.
    left. simpl. repeat split. now apply (Hfill rest).
  - destruct (Byte.eqb b "{"%byte) eqn:E2; [|discriminate].
    destruct (json_Unmarshal_NpfMedia (b :: rest) NpfMedia.zero)
      as [m [err|]] eqn:Hm; intros H; inversion H; subst; clear H.
    right. simpl. repeat split.
Qed.

End MediaFacts.

(* ------------------------------------------------------------------ *)
(** ** The container on the reference decoder *)

Lemma value_bracket (fuel : nat) (rest l : list byte) (v : json.Value) :
  json.value (S fuel) ("["%byte :: rest) = inr (v, l) ->
  exists vs, v = json.Array vs.
Proof.
  simpl. destruct (json.skip_space rest) as [|c l''].
  - discriminate.
  - destruct (Byte.eqb c "]"%byte).
    + intros H; inversion H; eauto.
    + destruct (json.elements fuel rest) as [e|[vs r]];
        intros H; inversion H; eauto.
Qed.

(** A text that starts with a bracket parses to an array or not at all. *)
Lemma parse_bracket (rest : list byte) (v : json.Value) :
  json.parse ("["%byte :: rest) = inr v -> exists vs, v = json.Array vs.
Proof.
  unfold json.parse.
  replace (2 * length ("["%byte :: rest) + 2)%nat
with (S (2 * length rest + 3)) by (simpl; lia).
  destruct (json.value _ _) as [e|[v' l]] eqn:Hv; [discriminate|].
  apply value_bracket in Hv. destruct (json.skip_space l); [|discriminate].
  intros H; inversion H; subst; exact Hv.
Qed.

Lemma ref_array_fills_slice : array_fills_slice ref_NpfMedia_slice.
Proof.
  intros rest ms. unfold ref_NpfMedia_slice, jsonstruct.Unmarshal_NpfMedia_slice.
  destruct (json.parse ("["%byte :: rest)) as [e|v] eqn:Hp.
  - discriminate.
  - destruct (parse_bracket _ Hp) as [vs ->].
    intros H; inversion H; discriminate.
Qed.

Lemma UnmarshalJSON_shapes_witness :
  UnmarshalJSON ref_NpfMedia ref_NpfMedia_slice NpfMediaContainer.zero
    (text "{'type':'image/png','url':'https://x/y.png','width':640}")
  = Return (NpfMediaContainer.mk
              (NpfMedia.mk "image/png" "https://x/y.png" 640 0) None false,
            None)
  /\ UnmarshalJSON ref_NpfMedia ref_NpfMedia_slice NpfMediaContainer.zero
       (bytes "[]")
     = Return (NpfMediaContainer.mk NpfMedia.zero (Some []) true, None).
Proof.
  split.
  - destruct (UnmarshalJSON_shapes ref_NpfMedia ref_NpfMedia_slice
                NpfMediaContainer.zero
                (text "'type':'image/png','url':'https://x/y.png','width':640}"))
      as [Hobj _].
    destruct (Hobj (NpfMedia.mk "image/png" "https://x/y.png" 640 0) eq_refl)
      as [_ H].
    exact H.
  - destruct (UnmarshalJSON_shapes ref_NpfMedia ref_NpfMedia_slice
                NpfMediaContainer.zero (bytes "]"))
      as [_ Harr].
    destruct (Harr (Some []) eq_refl) as [_ H].
    exact H.
Defined.

Lemma UnmarshalJSON_invariant_witness :
  (IsArray (NpfMediaContainer.mk NpfMedia.zero (Some []) true) = true
   /\ MediaCollection (NpfMediaContainer.mk NpfMedia.zero (Some []) true)
      <> None
   /\ ref_NpfMedia_slice (bytes "[]") make_slice = (Some [], None)
   /\ Media (NpfMediaContainer.mk NpfMedia.zero (Some []) true)
      = NpfMedia.zero)
  \/
  (IsArray (NpfMediaContainer.mk NpfMedia.zero (Some []) true) = false
   /\ ref_NpfMedia (bytes "[]") NpfMedia.zero = (NpfMedia.zero, None)
   /\ MediaCollection (NpfMediaContainer.mk NpfMedia.zero (Some []) true)
      = None).
Proof.
  exact (@UnmarshalJSON_invariant ref_NpfMedia ref_NpfMedia_slice
           (bytes "[]") (NpfMediaContainer.mk NpfMedia.zero (Some []) true)
           ref_array_fills_slice eq_refl).
Defined.

Lemma UnmarshalJSON_leading_space_witness :
  UnmarshalJSON ref_NpfMedia ref_NpfMedia_slice NpfMediaContainer.zero
    (bytes " []")
  = Return (NpfMediaContainer.zero, Some shape_error).
Proof.
  exact (@UnmarshalJSON_leading_space ref_NpfMedia ref_NpfMedia_slice
           NpfMediaContainer.zero " "%byte (bytes "[]") eq_refl).
Defined.

(** Counterexample to C4 as stated: [ []] and [ {}], a space and then a valid array
    or object, are valid JSON values (the standard decoder reads them), and
    the container refuses both with the shape error instead of decoding a
    collection or a single descriptor. *)
Lemma leading_space_is_not_skipped :
  ref_NpfMedia_slice (bytes " []") make_slice = (Some [], None)
  /\ UnmarshalJSON ref_NpfMedia ref_NpfMedia_slice NpfMediaContainer.zero
       (bytes " []")
     = Return (NpfMediaContainer.zero, Some shape_error)
  /\ ref_NpfMedia (bytes " {}") NpfMedia.zero = (NpfMedia.zero, None)
  /\ UnmarshalJSON ref_NpfMedia ref_NpfMedia_slice NpfMediaContainer.zero
       (bytes " {}")
     = Return (NpfMediaContainer.zero, Some shape_error).
Proof. repeat split. Qed.

(** An input that is not empty and starts with another byte: the shape
    error, and the container as it was. *)
Example UnmarshalJSON_null :
  UnmarshalJSON ref_NpfMedia ref_NpfMedia_slice
    (NpfMediaContainer.mk (NpfMedia.mk "a" "b" 1 2) (Some []) true)
    (bytes "null")
  = Return (NpfMediaContainer.mk (NpfMedia.mk "a" "b" 1 2) (Some []) true,
            Some shape_error).
Proof. reflexivity. Qed.

(* ================================================================== *)
(** * The query helpers *)
(* ================================================================== *)

Lemma nonempty_length (s : string) :
  s <> "" -> (0 <? String.length s)%nat = true.
Proof. destruct s; [congruence | reflexivity]. Qed.

Lemma empty_length (s : string) :
  s = "" -> (0 <? String.length s)%nat = false.
Proof. intros ->. reflexivity. Qed.

Section ClientFacts.

Variable fmt_rest : string -> list string -> string.
Variables C World : Type.
Variable Get :
  C -> string -> World -> (Response.t * option error) * World.
Variable GetWithParams :
  C -> string -> Values -> World -> (Response.t * option error) * World.
Variable json_Unmarshal_posts :
  list byte -> postsEnvelope.t C -> postsEnvelope.t C * option error.
Variable json_Unmarshal_blog :
  list byte -> blogEnvelope.t C -> blogEnvelope.t C * option error.

Local Notation "'posts_of'" :=
  (GetPosts fmt_rest GetWithParams json_Unmarshal_posts).
Local Notation "'info_of'" :=
  (GetBlogInfo fmt_rest Get json_Unmarshal_blog).
Local Notation "'avatar_of'" := (GetAvatar fmt_rest Get).

Ltac run_helper :=
  unfold GetPosts, queryPosts, GetBlogInfo, GetAvatar, bind, ret,
         call_Get, call_GetWithParams.



(** [GetAvatar] when the request fails, and when the body is parsed and
    the parser fails. *)
Lemma GetAvatar_errors (P : Response.t -> Response.t * option error)
      (c : C) (name : string) (w w' : World) (response : Response.t)
      (err : option error) :
  Get c (blogPath fmt_rest "/blog/%s/avatar" name) w = ((response, err), w') ->
  match err with
  | Some e => avatar_of P (Some c) name w = (Return ("", Some e), w')
  | None =>
    Header.Get (Response.Headers response) "Location" = "" ->
    forall r e, P response = (r, Some e) ->
                avatar_of P (Some c) name w = (Return ("", Some e), w')
  end.
Proof.
  intros Hreq. run_helper. rewrite Hreq.
  destruct err as [e|]; [reflexivity|].
  intros Hloc r e HP. rewrite (empty_length Hloc), HP. reflexivity.
Qed.


(** C6, as the code has it: after a request that succeeded, a [Location]
    header that is not empty is returned whatever the body and its parser
    are; when the header is empty the body is parsed: if the parser fails
    its error is returned; if it succeeds, a string under [location] in
    the result is returned, and the avatar error is returned when there is
    no string there. *)
Theorem GetAvatar_location (P : Response.t -> Response.t * option error)
        (c : C) (name : string) (w w' : World) (response : Response.t) :
  Get c (blogPath fmt_rest "/blog/%s/avatar" name) w
  = ((response, None), w') ->
  let header := Header.Get (Response.Headers response) "Location" in
  (header <> "" ->
   forall P', avatar_of P' (Some c) name w = (Return (header, None), w'))
  /\ (header = "" ->
      forall r e, P response = (r, Some e) ->
        avatar_of P (Some c) name w = (Return ("", Some e), w'))
  /\ (header = "" ->
      forall r, P response = (r, None) ->
        match Response.index r "location" with
        | Some (json.Str location) =>
          avatar_of P (Some c) name w = (Return (location, None), w')
        | _ =>
          avatar_of P (Some c) name w
          = (Return ("", Some (errors_New "Unable to detect avatar location")),
             w')
        end).
Proof.
  intros Hreq header. repeat apply conj.
  - intros Hloc P'. run_helper. rewrite Hreq.
    fold header. now rewrite (nonempty_length Hloc).
  - intros Hloc r e HP. exact (@GetAvatar_errors P _ _ _ _ _ _ Hreq Hloc _ _ HP).
  - intros Hloc r HP. run_helper. rewrite Hreq.
    fold header. rewrite (empty_length Hloc), HP.
    destruct (Response.index r "location") as [[| | |location| | |]|];
      reflexivity.
Qed.

End ClientFacts.


(* ================================================================== *)
(** * Looking a field up by name *)
(* ================================================================== *)

Section NoMatch.

Variable T : Type.
Variable key : string.
Variable U : list string.
Hypothesis HU : forall n, In n U -> String.eqb n key = false.

Lemma reach_embedded (n : string) (r : T -> reflect.Value)
      (sub : list (reflect.StructField T)) :
  reflect.reach (reflect.mkField n true r (Some sub))
  = n :: reflect.reach_all sub.
Proof. reflexivity. Qed.

Lemma covered_cons (f : reflect.StructField T)
      (fs : list (reflect.StructField T)) :
  reflect.covered U (f :: fs) ->
  In (reflect.Name f) U
  /\ reflect.covered U fs
  /\ (reflect.Anonymous f = true ->
      forall sub, reflect.fields f = Some sub -> reflect.covered U sub).
Proof.
  unfold reflect.covered, reflect.reach_all. simpl. intros H.
  apply incl_app_inv in H. destruct H as [Hf Hfs]. repeat split.
  - apply Hf. destruct f as [n [] r [sub|]]; simpl; auto.
  - exact Hfs.
  - intros Ha sub Hs. destruct f as [n a r s]. simpl in Ha, Hs. subst a s.
    rewrite reach_embedded in Hf. intros x Hx. apply Hf. right. exact Hx.
Qed.

(** While no name matches, a scan finds nothing, annihilates nothing and
    queues only structs whose names are in [U]. *)
Lemma scanFields_nomatch (index : list nat)
      (fs : list (reflect.StructField T)) :
  forall (i : nat) (st : reflect.level T),
    reflect.covered U fs ->
    reflect.result st = None -> reflect.annihilated st = false ->
    reflect.level_covered U (reflect.next st) ->
    reflect.result (reflect.scanFields key index i fs st) = None
    /\ reflect.annihilated (reflect.scanFields key index i fs st) = false
    /\ reflect.level_covered U
         (reflect.next (reflect.scanFields key index i fs st)).
Proof.
  induction fs as [|f fs IH]; intros i st Hc Hr Ha Hn; simpl.
  - auto.
  - apply covered_cons in Hc. destruct Hc as (Hname & Hfs & Hsub).
    rewrite (HU _ Hname). rewrite Hr.
    destruct (reflect.Anonymous f) eqn:Hanon.
    + destruct (reflect.fields f) as [sub|] eqn:Hf.
      * apply IH; simpl; auto.
        apply Forall_app. split; [exact Hn|].
        constructor; [|constructor]. simpl. now apply Hsub.
      * apply IH; auto.
    + apply IH; auto.
Qed.

Lemma scanLevel_nomatch (current : list (reflect.fieldScan T)) :
  forall st : reflect.level T,
    reflect.level_covered U current ->
    reflect.result st = None -> reflect.annihilated st = false ->
    reflect.level_covered U (reflect.next st) ->
    reflect.result (reflect.scanLevel key current st) = None
    /\ reflect.annihilated (reflect.scanLevel key current st) = false
    /\ reflect.level_covered U (reflect.next (reflect.scanLevel key current st)).
Proof.
  induction current as [|[index fs] current IH]; intros st Hc Hr Ha Hn; simpl.
  - auto.
  - inversion Hc as [|? ? Hfs Hrest]; subst. simpl in Hfs.
    destruct (@scanFields_nomatch index fs 0 st Hfs Hr Ha Hn)
      as (Hr' & Ha' & Hn').
    apply IH; auto.
Qed.

Lemma search_nomatch (fuel : nat) :
  forall current : list (reflect.fieldScan T),
    reflect.level_covered U current ->
    reflect.search key fuel current = None.
Proof.
  induction fuel as [|fuel IH]; intros current Hc; simpl.
  - reflexivity.
  - destruct (@scanLevel_nomatch current (reflect.mkLevel None false [])
                Hc eq_refl eq_refl (Forall_nil _))
      as (Hr & Ha & Hn).
    rewrite Ha, Hr.
    destruct (reflect.next _) eqn:Hnext; [reflexivity|].
    apply IH. exact Hn.
Qed.

Lemma direct_nomatch (fs : list (reflect.StructField T)) :
  forall i : nat, reflect.covered U fs -> reflect.direct key i fs = None.
Proof.
  induction fs as [|f fs IH]; intros i Hc; simpl; [reflexivity|].
  apply covered_cons in Hc. destruct Hc as (Hname & Hfs & _).
  rewrite (HU _ Hname). now apply IH.
Qed.

(** A name that is none of the names a lookup can meet is not found. *)
Lemma FieldByName_nomatch (fs : list (reflect.StructField T)) :
  reflect.covered U fs -> reflect.FieldByName fs key = None.
Proof.
  intros Hc. unfold reflect.FieldByName.
  destruct (String.eqb key ""); [reflexivity|].
  rewrite (@direct_nomatch fs 0 Hc).
  destruct (reflect.hasEmbeds fs); [|reflexivity].
  apply search_nomatch. constructor; [exact Hc|constructor].
Qed.

Lemma selector_nomatch (C : Type)
      (l : list (string * (Post.t C -> reflect.Value))) :
  incl (map fst l) U -> selector l key = None.
Proof.
  induction l as [|[n sel] l IH]; intros Hl; simpl; [reflexivity|].
  rewrite (HU n) by (apply Hl; left; reflexivity).
  apply IH. intros x Hx. apply Hl. right. exact Hx.
Qed.

End NoMatch.

Lemma incl_check (l U : list string) :
  forallb (fun n => existsb (String.eqb n) U) l = true -> incl l U.
Proof.
  intros H x Hx. rewrite forallb_forall in H. specialize (H x Hx).
  apply existsb_exists in H. destruct H as (y & Hy & Heq).
  apply String.eqb_eq in Heq. now subst y.
Qed.

Section PostFacts.

Variable fmt_rest : string -> list string -> string.
Variable C : Type.

(** The names of the fields of a post. *)
Example Post_selector_names :
  map fst (Post_selectors C) =
  [ "PostRef"; "Body"; "CanLike"; "CanReblog"; "CanReply";
    "CanSendInMessage"; "Caption"; "Date"; "DisplayAvatar"; "Followed";
    "Format"; "Highlighted"; "Liked"; "NoteCount"; "PermalinkUrl";
    "PostUrl"; "Reblog"; "Notes"; "RecommendedColor"; "RecommendedSource";
    "ShortUrl"; "Slug"; "SourceTitle"; "SourceUrl"; "State"; "Summary";
    "Tags"; "Timestamp"; "FeaturedTimestamp"; "TrackName"; "Content";
    "Trail"; "MiniPost"; "client"; "Id"; "Type"; "BlogName"; "ReblogKey" ]%list.
Proof. reflexivity. Qed.

Lemma Post_fields_covered :
  reflect.covered (map fst (Post_selectors C)) (Post_fields C).
Proof. apply incl_check. reflexivity. Qed.




End PostFacts.

(** Some fields by name, on the zero post. *)
Example GetProperty_Id :
  GetProperty (fun _ _ => "") (@Post.zero nat) "Id"
  = Return (Some (reflect.ValueOf 0%Z), None).
Proof. reflexivity. Qed.

Example GetProperty_client :
  GetProperty (fun _ _ => "") (@Post.zero nat) "client"
  = Return (Some (reflect.ValueOf (@None nat)), None).
Proof. reflexivity. Qed.

Example GetProperty_tag_is_no_field :
  GetProperty (fun _ _ => "") (@Post.zero nat) "note_count"
  = Return (None, Some (errors_New "Property note_count does not exist")).
Proof. reflexivity. Qed.

Example GetProperty_nested_is_no_field :
  GetProperty (fun _ _ => "") (@Post.zero nat) "TreeHTML"
  = Return (None, Some (errors_New "Property TreeHTML does not exist")).
Proof. reflexivity. Qed.

(* ------------------------------------------------------------------ *)
(** ** The helpers on the mock client *)

Lemma GetAvatar_location_witness :
  mock_GetAvatar
    (Some (mock.answers "" [("Location", ["https://x/y.png"])])) "foo" 0
  = (Return ("https://x/y.png", None), 1).
Proof.
  destruct (@GetAvatar_location (fun _ _ => "") mock.t nat mock.Get
              ref_PopulateFromBody
              (mock.answers "" [("Location", ["https://x/y.png"])])
              "foo" 0 1
              (Response.mk (text "") [("Location", ["https://x/y.png"])] None)
              eq_refl) as [Hheader _].
  apply Hheader. discriminate.
Defined.

(** Counterexample to C6 as stated: with no [Location] header and a body that is
    not JSON (here the empty body), neither the header nor the body gives a
    location, and the call fails with the error of the parser, which is not
    the avatar error. *)
Lemma GetAvatar_parse_error_is_returned :
  Header.Get [] "Location" = ""
  /\ snd (ref_PopulateFromBody (Response.mk (text "") [] None))
     = Some json.SyntaxError
  /\ mock_GetAvatar (Some (mock.answers "" [])) "foo" 0
     = (Return ("", Some json.SyntaxError), 1)
  /\ json.SyntaxError <> errors_New "Unable to detect avatar location".
Proof. repeat split. discriminate. Qed.

Example GetAvatar_from_body :
  mock_GetAvatar
    (Some (mock.answers "{'response':{'location':'https://x/z.png'}}" []))
    "foo" 0
  = (Return ("https://x/z.png", None), 1).
Proof. reflexivity. Qed.

Example GetAvatar_not_found :
  mock_GetAvatar (Some (mock.answers "{'response':{'location':5}}" []))
    "foo" 0
  = (Return ("", Some (errors_New "Unable to detect avatar location")), 1).
Proof. reflexivity. Qed.


(** The scenario of a posts query: one post of id 1, one post in total,
    the client attached, one request made. *)
Example GetPosts_scenario :
  match mock_GetPosts
          (Some (mock.answers
             "{'response':{'posts':[{'id':1,'type':'text'}],'total_posts':1}}"
             [])) "foo" [] 0 with
  | (Return (Some p, None), 1%nat) =>
    option_map (map (fun q => MiniPost.Id (PostRef.MiniPost (Post.PostRef q))))
               (Posts.Posts p) = Some [1%Z]
    /\ Posts.TotalPosts p = 1%Z
    /\ Posts.client p <> None
  | _ => False
  end.
Proof. simpl. repeat split. discriminate. Qed.


(* ================================================================== *)
(** * A blog decoded and encoded again *)
(* ================================================================== *)



Section RoundTrip.

Variable foldName : string -> string.

Local Notation "'check'" := (jsonstruct.mismatch foldName).
Local Notation "'key_field'" := (jsonstruct.field_of_key foldName).
Local Notation "'chooses'" := (jsonstruct.selects foldName).







Lemma selects_own_tag (tags : list string) (tag : string) :
  In tag tags -> chooses tags tag tag = true.
Proof.
  intros Hin. unfold jsonstruct.selects, jsonstruct.field_of_key.
  destruct (find (String.eqb tag) tags) as [t|] eqn:Hfind.
  - apply find_some in Hfind. destruct Hfind as [_ Heq].
    apply String.eqb_eq in Heq. subst t. apply String.eqb_refl.
  - exfalso. pose proof (find_none _ _ Hfind tag Hin) as Hnone.
    rewrite String.eqb_refl in Hnone. discriminate.
Qed.

Lemma populated_app (tags : list string) (tag : string)
      (ms : list (string * json.Value)) (m : string * json.Value) :
  jsonstruct.populated foldName tags tag (ms ++ [m])%list
  = if chooses tags tag (fst m)
    then match snd m with
         | json.Null => jsonstruct.populated foldName tags tag ms
         | v => Some v
         end
    else jsonstruct.populated foldName tags tag ms.
Proof.
  unfold jsonstruct.populated. rewrite fold_left_app. reflexivity.
Qed.

(** An object whose last member is written under the tag of a field, with
    a value other than null, populates the field with that value. *)
Lemma populated_last_member (tags : list string) (tag : string)
      (ms : list (string * json.Value)) (v : json.Value) :
  In tag tags -> v <> json.Null ->
  jsonstruct.populated foldName tags tag (ms ++ [(tag, v)])%list = Some v.
Proof.
  intros Hin Hv. rewrite populated_app. simpl.
  rewrite (selects_own_tag _ _ Hin). destruct v; congruence.
Qed.

End RoundTrip.




Section BlogRoundTrip.

Variable foldName : string -> string.
Variable C : Type.



End BlogRoundTrip.

(** The members of an encoded blog are the tags of its fields. *)
Example Blog_String_tags :
  map fst (jsonstruct.members_of (Blog_String (@Blog.zero nat)))
  = jsonstruct.Blog_tags.
Proof. reflexivity. Qed.


(* ================================================================== *)
(** * More on the media container *)
(* ================================================================== *)

Section MediaMore.

Variable json_Unmarshal_NpfMedia :
  list byte -> NpfMedia.t -> NpfMedia.t * option error.
Variable json_Unmarshal_NpfMedia_slice :
  list byte -> slice NpfMedia.t -> slice NpfMedia.t * option error.

Local Notation "'decode'" :=
  (UnmarshalJSON json_Unmarshal_NpfMedia json_Unmarshal_NpfMedia_slice).

(** X2: a call that returns an error has changed nothing in the
    container, and the error is the one of the standard decoder, as it is,
    when the first byte is a bracket or a brace, and the shape error
    otherwise. *)
Theorem UnmarshalJSON_failure_is_atomic (n n' : NpfMediaContainer.t)
        (data : list byte) (e : error) :
  decode n data = Return (n', Some e) ->
  n' = n
  /\ match data with
     | [] => False
     | b :: _ =>
       if Byte.eqb b "["%byte
       then snd (json_Unmarshal_NpfMedia_slice data make_slice) = Some e
       else if Byte.eqb b "{"%byte
       then snd (json_Unmarshal_NpfMedia data NpfMedia.zero) = Some e
       else e = shape_error
     end.
Proof.
  unfold UnmarshalJSON. destruct data as [|b rest]; [discriminate|].
  destruct (Byte.eqb b "["%byte).
  - destruct (json_Unmarshal_NpfMedia_slice (b :: rest) make_slice)
      as [ms [err|]]; intros H; inversion H; subst; split; reflexivity.
  - destruct (Byte.eqb b "{"%byte).
    + destruct (json_Unmarshal_NpfMedia (b :: rest) NpfMedia.zero)
        as [m [err|]]; intros H; inversion H; subst; split; reflexivity.
    + intros H; inversion H; subst; split; reflexivity.
Qed.

(** X3: decoding is idempotent: when a container was decoded from some
    bytes with success, decoding the same bytes into the result succeeds
    again and changes nothing. *)
Theorem UnmarshalJSON_idempotent (n n' : NpfMediaContainer.t)
        (data : list byte) :
  decode n data = Return (n', None) ->
  decode n' data = Return (n', None).
Proof.
  unfold UnmarshalJSON. destruct data as [|b rest]; [discriminate|].
  destruct (Byte.eqb b "["%byte).
  - destruct (json_Unmarshal_NpfMedia_slice (b :: rest) make_slice)
      as [ms [err|]]; intros H; inversion H; subst; reflexivity.
  - destruct (Byte.eqb b "{"%byte); [|discriminate].
    destruct (json_Unmarshal_NpfMedia (b :: rest) NpfMedia.zero)
      as [m [err|]]; intros H; inversion H; subst; reflexivity.
Qed.

(** X4: the decoder never clears the field it does not write.  A
    container that was decoded from an array and is then decoded from an
    object has its flag at false and still holds the collection of the
    array, which is not nil: both fields are populated. *)
Theorem UnmarshalJSON_reuse_keeps_collection
        (n1 n2 : NpfMediaContainer.t) (rest1 rest2 : list byte) :
  array_fills_slice json_Unmarshal_NpfMedia_slice ->
  decode NpfMediaContainer.zero ("["%byte :: rest1) = Return (n1, None) ->
  decode n1 ("{"%byte :: rest2) = Return (n2, None) ->
  IsArray n1 = true
  /\ IsArray n2 = false
  /\ MediaCollection n2 = MediaCollection n1
  /\ MediaCollection n2 <> None
  /\ json_Unmarshal_NpfMedia ("{"%byte :: rest2) NpfMedia.zero
     = (Media n2, None).
Proof.
  intros Hfill. unfold UnmarshalJSON. simpl.
  destruct (json_Unmarshal_NpfMedia_slice ("["%byte :: rest1) make_slice)
    as [ms [err|]] eqn:Hms; intros H1; inversion H1; subst; clear H1.
  destruct (json_Unmarshal_NpfMedia ("{"%byte :: rest2) NpfMedia.zero)
    as [m [err|]] eqn:Hm; intros H2; inversion H2; subst; clear H2.
  simpl. repeat split. exact (Hfill rest1 ms Hms).
Qed.

End MediaMore.

Lemma UnmarshalJSON_failure_is_atomic_witness :
  NpfMediaContainer.mk (NpfMedia.mk "a" "b" 1 2) None false
  = NpfMediaContainer.mk (NpfMedia.mk "a" "b" 1 2) None false
  /\ snd (ref_NpfMedia_slice (text "[{'width':'wide'}]") make_slice)
     = Some (json.UnmarshalTypeError "width").
Proof.
  exact (@UnmarshalJSON_failure_is_atomic ref_NpfMedia ref_NpfMedia_slice
           (NpfMediaContainer.mk (NpfMedia.mk "a" "b" 1 2) None false)
           (NpfMediaContainer.mk (NpfMedia.mk "a" "b" 1 2) None false)
           (text "[{'width':'wide'}]")
           (json.UnmarshalTypeError "width") eq_refl).
Defined.

Lemma UnmarshalJSON_idempotent_witness :
  UnmarshalJSON ref_NpfMedia ref_NpfMedia_slice
    (NpfMediaContainer.mk (NpfMedia.mk "" "u" 0 0) None false)
    (text "{'url':'u'}")
  = Return (NpfMediaContainer.mk (NpfMedia.mk "" "u" 0 0) None false, None).
Proof.
  exact (@UnmarshalJSON_idempotent ref_NpfMedia ref_NpfMedia_slice
           NpfMediaContainer.zero
           (NpfMediaContainer.mk (NpfMedia.mk "" "u" 0 0) None false)
           (text "{'url':'u'}") eq_refl).
Defined.

Lemma UnmarshalJSON_reuse_keeps_collection_witness :
  IsArray (NpfMediaContainer.mk NpfMedia.zero
             (Some [NpfMedia.mk "" "a" 0 0]) true) = true
  /\ IsArray (NpfMediaContainer.mk (NpfMedia.mk "" "b" 0 0)
                (Some [NpfMedia.mk "" "a" 0 0]) false) = false
  /\ MediaCollection (NpfMediaContainer.mk (NpfMedia.mk "" "b" 0 0)
                        (Some [NpfMedia.mk "" "a" 0 0]) false)
     = MediaCollection (NpfMediaContainer.mk NpfMedia.zero
                          (Some [NpfMedia.mk "" "a" 0 0]) true)
  /\ MediaCollection (NpfMediaContainer.mk (NpfMedia.mk "" "b" 0 0)
                        (Some [NpfMedia.mk "" "a" 0 0]) false)
     <> None
  /\ ref_NpfMedia (text "{'url':'b'}") NpfMedia.zero
     = (Media (NpfMediaContainer.mk (NpfMedia.mk "" "b" 0 0)
                 (Some [NpfMedia.mk "" "a" 0 0]) false), None).
Proof.
  exact (@UnmarshalJSON_reuse_keeps_collection ref_NpfMedia ref_NpfMedia_slice
           (NpfMediaContainer.mk NpfMedia.zero
              (Some [NpfMedia.mk "" "a" 0 0]) true)
           (NpfMediaContainer.mk (NpfMedia.mk "" "b" 0 0)
              (Some [NpfMedia.mk "" "a" 0 0]) false)
           (text "{'url':'a'}]") (text "'url':'b'}")
           ref_array_fills_slice eq_refl eq_refl).
Defined.

(* ================================================================== *)
(** * More on blog names and paths *)
(* ================================================================== *)

Lemma HasPrefix_app (s t : string) : strings.HasPrefix (s ++ t) s = true.
Proof.
  induction s as [|c s IH]; simpl.
  - apply HasPrefix_nil.
  - now rewrite Ascii.eqb_refl.
Qed.

Lemma HasPrefix_refl (s : string) : strings.HasPrefix s s = true.
Proof.
  rewrite <- (append_nil_r s) at 1. apply HasPrefix_app.
Qed.

Lemma length_append (s t : string) :
  String.length (s ++ t) = (String.length s + String.length t)%nat.
Proof. induction s as [|c s IH]; simpl; [reflexivity | now rewrite IH]. Qed.

Section PathMore.

Variable fmt_rest : string -> list string -> string.

Lemma normalized_has_dot (s : string) :
  strings.Contains (normalizeBlogName fmt_rest s) "." = true.
Proof.
  rewrite normalizeBlogName_cases.
  destruct (strings.Contains s ".") eqn:Hdot; [exact Hdot|].
  now apply Contains_app_r.
Qed.

Lemma normalized_twice (s : string) :
  normalizeBlogName fmt_rest (normalizeBlogName fmt_rest s)
  = normalizeBlogName fmt_rest s.
Proof.
  rewrite (normalizeBlogName_cases fmt_rest (normalizeBlogName fmt_rest s)).
  now rewrite normalized_has_dot.
Qed.

(** X5: the normalized name always contains a dot and always starts with
    the name it was given; it is the name itself exactly when the name
    contains a dot. *)
Theorem normalizeBlogName_shape (s : string) :
  strings.Contains (normalizeBlogName fmt_rest s) "." = true
  /\ strings.HasPrefix (normalizeBlogName fmt_rest s) s = true
  /\ (normalizeBlogName fmt_rest s = s <-> strings.Contains s "." = true).
Proof.
  split; [apply normalized_has_dot|].
  rewrite normalizeBlogName_cases.
  destruct (strings.Contains s ".") eqn:Hdot.
  - split; [apply HasPrefix_refl|]. split; reflexivity.
  - split; [apply HasPrefix_app|]. split; [|discriminate].
    intros Heq. apply (f_equal String.length) in Heq.
    rewrite length_append in Heq. simpl in Heq. lia.
Qed.

(** X6: for every template, the path of a name and the path of its
    normalized form are the same: a bare name and the same name with the
    default domain cannot be told apart. *)
Theorem blogPath_normalized_name (path name : string) :
  blogPath fmt_rest path (normalizeBlogName fmt_rest name)
  = blogPath fmt_rest path name.
Proof. unfold blogPath. now rewrite normalized_twice. Qed.

(** X7: a template that is not as expected gives no error.  Without a
    placeholder the normalized name is reported after the text as an extra
    operand; with two placeholders the first one receives the name and the
    second one is reported as missing its operand. *)
Theorem blogPath_malformed_template (pre mid post name : string) :
  strings.ContainsByte pre "%" = false ->
  strings.ContainsByte mid "%" = false ->
  strings.ContainsByte post "%" = false ->
  blogPath fmt_rest pre name
  = pre ++ "%!(EXTRA string=" ++ normalizeBlogName fmt_rest name ++ ")"
  /\ blogPath fmt_rest (pre ++ "%s" ++ mid ++ "%s" ++ post) name
     = pre ++ normalizeBlogName fmt_rest name ++ mid ++ "%!s(MISSING)" ++ post.
Proof.
  intros Hpre Hmid Hpost. unfold blogPath, Sprintf. split.
  - rewrite <- (append_nil_r pre) at 1.
    rewrite doPrintf_text by exact Hpre. reflexivity.
  - rewrite doPrintf_text by exact Hpre. simpl.
    rewrite doPrintf_text by exact Hmid. simpl.
    now rewrite doPrintf_no_operand.
Qed.

End PathMore.

Lemma blogPath_malformed_template_witness :
  blogPath (fun _ _ => "") "/blog/" "foo"
  = "/blog/%!(EXTRA string=foo.tumblr.com)"
  /\ blogPath (fun _ _ => "") "/blog/%s/post/%s" "foo"
     = "/blog/foo.tumblr.com/post/%!s(MISSING)".
Proof.
  exact (@blogPath_malformed_template (fun _ _ => "")
           "/blog/" "/post/" "" "foo" eq_refl eq_refl eq_refl).
Defined.

(* ================================================================== *)
(** * More on the query helpers *)
(* ================================================================== *)

Section ClientMore.

Variable fmt_rest : string -> list string -> string.
Variables C World : Type.
Variable Get :
  C -> string -> World -> (Response.t * option error) * World.
Variable GetWithParams :
  C -> string -> Values -> World -> (Response.t * option error) * World.
Variable json_Unmarshal_posts :
  list byte -> postsEnvelope.t C -> postsEnvelope.t C * option error.
Variable json_Unmarshal_blog :
  list byte -> blogEnvelope.t C -> blogEnvelope.t C * option error.
Variable P : Response.t -> Response.t * option error.

Local Notation "'posts_of'" :=
  (GetPosts fmt_rest GetWithParams json_Unmarshal_posts).
Local Notation "'info_of'" :=
  (GetBlogInfo fmt_rest Get json_Unmarshal_blog).
Local Notation "'avatar_of'" := (GetAvatar fmt_rest Get P).
Local Notation "'ref_info'" :=
  (BlogRef_GetInfo fmt_rest Get json_Unmarshal_blog).
Local Notation "'ref_posts_of'" :=
  (BlogRef_GetPosts fmt_rest GetWithParams json_Unmarshal_posts).

Ltac run_helper :=
  unfold BlogRef_GetInfo, BlogRef_GetPosts, NewBlogRef,
         GetPosts, queryPosts, GetBlogInfo, GetAvatar, bind, ret,
         call_Get, call_GetWithParams.

(** X8: with the nil interface as client, every helper panics on the
    method call before any request is made: the world is as it was.  So
    does a [BlogRef] at its zero value. *)
Theorem nil_client_panics (name : string) (params : Values) (w : World) :
  posts_of None name params w = (Panic nil_dereference, w)
  /\ info_of None name w = (Panic nil_dereference, w)
  /\ avatar_of None name w = (Panic nil_dereference, w)
  /\ ref_info BlogRef.zero w = (Panic nil_dereference, w)
  /\ ref_posts_of BlogRef.zero params w = (Panic nil_dereference, w).
Proof. repeat split. Qed.

(** X9: with a client, every helper makes exactly one request, at the
    path of the blog, whatever comes of it: the world after the call is
    the world that request left. *)
Theorem helpers_make_one_request (c : C) (name : string) (params : Values)
        (w : World) :
  snd (posts_of (Some c) name params w)
  = snd (GetWithParams c (blogPath fmt_rest "/blog/%s/posts" name) params w)
  /\ snd (info_of (Some c) name w)
     = snd (Get c (blogPath fmt_rest "/blog/%s/info" name) w)
  /\ snd (avatar_of (Some c) name w)
     = snd (Get c (blogPath fmt_rest "/blog/%s/avatar" name) w).
Proof.
  repeat apply conj; run_helper.
  - destruct (GetWithParams c _ params w) as [[response [e|]] w'];
      [reflexivity|].
    destruct (json_Unmarshal_posts _ _) as [posts [e|]]; reflexivity.
  - destruct (Get c _ w) as [[response [e|]] w']; [reflexivity|].
    destruct (json_Unmarshal_blog _ _) as [blog [e|]]; reflexivity.
  - destruct (Get c _ w) as [[response [e|]] w']; [reflexivity|].
    destruct (0 <? String.length _)%nat; [reflexivity|].
    destruct (P response) as [r [e|]]; [reflexivity|].
    destruct (Response.index r "location") as [[| | |location| | |]|];
      reflexivity.
Qed.

(** X10: a helper never returns a result together with an error, and
    [GetPosts] and [GetBlogInfo] never return neither: they give an entity
    and no error, or no entity and an error; every error of [GetAvatar]
    comes with the empty string. *)
Theorem helpers_result_xor_error (c : C) (name : string) (params : Values)
        (w : World) :
  (forall r e w',
      posts_of (Some c) name params w = (Return (r, e), w') ->
      (r <> None /\ e = None) \/ (r = None /\ e <> None))
  /\ (forall r e w',
      info_of (Some c) name w = (Return (r, e), w') ->
      (r <> None /\ e = None) \/ (r = None /\ e <> None))
  /\ (forall s e w',
      avatar_of (Some c) name w = (Return (s, Some e), w') -> s = "").
Proof.
  repeat apply conj; intros r e w'; run_helper.
  - destruct (GetWithParams c _ params w) as [[response [e0|]] w0].
    + intros H; inversion H; subst. right. split; [reflexivity|discriminate].
    + destruct (json_Unmarshal_posts _ _) as [posts [e0|]];
        intros H; inversion H; subst;
          [right | left]; split; try reflexivity; discriminate.
  - destruct (Get c _ w) as [[response [e0|]] w0].
    + intros H; inversion H; subst. right. split; [reflexivity|discriminate].
    + destruct (json_Unmarshal_blog _ _) as [blog [e0|]];
        intros H; inversion H; subst;
          [right | left]; split; try reflexivity; discriminate.
  - destruct (Get c _ w) as [[response [e0|]] w0].
    + intros H; inversion H; reflexivity.
    + destruct (0 <? String.length _)%nat; [discriminate|].
      destruct (P response) as [r0 [e0|]].
      * intros H; inversion H; reflexivity.
      * destruct (Response.index r0 "location") as [[| | |location| | |]|];
          intros H; inversion H; reflexivity.
Qed.

(** X11: a bare name and its normalized form are the same blog to every
    helper, and a [BlogRef] made of a client and a name, bare or
    normalized, holds that client and that name and queries as the helpers
    do with them. *)
Theorem helpers_accept_normalized_name (client : option C) (name : string)
        (params : Values) :
  posts_of client (normalizeBlogName fmt_rest name) params
  = posts_of client name params
  /\ info_of client (normalizeBlogName fmt_rest name) = info_of client name
  /\ avatar_of client (normalizeBlogName fmt_rest name)
     = avatar_of client name
  /\ ref_info (NewBlogRef client (normalizeBlogName fmt_rest name))
     = info_of client name
  /\ ref_posts_of (NewBlogRef client (normalizeBlogName fmt_rest name)) params
     = posts_of client name params
  /\ getName (NewBlogRef client name) = name
  /\ BlogRef.client (NewBlogRef client name) = client
  /\ ref_info (NewBlogRef client name) = info_of client name
  /\ ref_posts_of (NewBlogRef client name) params
     = posts_of client name params.
Proof.
  repeat apply conj; run_helper; simpl;
    unfold blogPath; rewrite ?normalized_twice; reflexivity.
Qed.

(** X12: every location that [GetAvatar] returns with no error comes from
    the response of its request: it is the [Location] header when that is
    not empty, and otherwise the string under [location] in the parsed
    body (which may be the empty string). *)
Theorem GetAvatar_success_source (c : C) (name : string) (w w0 w' : World)
        (response : Response.t) (err : option error) (s : string) :
  Get c (blogPath fmt_rest "/blog/%s/avatar" name) w = ((response, err), w0) ->
  avatar_of (Some c) name w = (Return (s, None), w') ->
  err = None
  /\ w' = w0
  /\ ((Header.Get (Response.Headers response) "Location" <> ""
       /\ s = Header.Get (Response.Headers response) "Location")
      \/ (Header.Get (Response.Headers response) "Location" = ""
          /\ exists r, P response = (r, None)
                       /\ Response.index r "location" = Some (json.Str s))).
Proof.
  intros Hreq. run_helper. rewrite Hreq.
  destruct err as [e|]; [discriminate|].
  destruct (Header.Get (Response.Headers response) "Location")
    as [|ch location] eqn:Hloc; simpl.
  - destruct (P response) as [r [e|]] eqn:HP; [discriminate|].
    destruct (Response.index r "location") as [[| | |l| | |]|] eqn:Hidx;
      try discriminate.
    intros H; inversion H; subst. repeat split. right. split; [reflexivity|].
    exists r. split; [reflexivity | exact Hidx].
  - intros H; inversion H; subst. repeat split. left.
    split; [discriminate | reflexivity].
Qed.

(** X14: the blog that [GetBlogInfo] returns is ready for the next call:
    its embedded [BlogRef] holds the client of the first call and the name
    that the decoder read in the response of that call, and it queries
    with that client under that name. *)
Theorem Blog_follow_up (c : C) (name : string) (w w' : World)
        (b : Blog.t C) (params : Values) :
  info_of (Some c) name w = (Return (Some b, None), w') ->
  (exists response blog,
      Get c (blogPath fmt_rest "/blog/%s/info" name) w
      = ((response, None), w')
      /\ json_Unmarshal_blog (Response.body response) blogEnvelope.zero
         = (blog, None)
      /\ BlogRef.Name (Blog.BlogRef b)
         = BlogRef.Name
             (Blog.BlogRef (blogEnvelope.Blog (blogEnvelope.Response blog))))
  /\ BlogRef.client (Blog.BlogRef b) = Some c
  /\ ref_posts_of (Blog.BlogRef b) params
     = posts_of (Some c) (BlogRef.Name (Blog.BlogRef b)) params
  /\ ref_info (Blog.BlogRef b)
     = info_of (Some c) (BlogRef.Name (Blog.BlogRef b)).
Proof.
  intros Hinfo.
  assert (Hsrc :
    (exists response blog,
        Get c (blogPath fmt_rest "/blog/%s/info" name) w
        = ((response, None), w')
        /\ json_Unmarshal_blog (Response.body response) blogEnvelope.zero
           = (blog, None)
        /\ BlogRef.Name (Blog.BlogRef b)
           = BlogRef.Name
               (Blog.BlogRef
                  (blogEnvelope.Blog (blogEnvelope.Response blog))))
    /\ BlogRef.client (Blog.BlogRef b) = Some c).
  { revert Hinfo. unfold GetBlogInfo, bind, ret, call_Get.
    destruct (Get c _ w) as [[response [e|]] w0]; [discriminate|].
    destruct (json_Unmarshal_blog _ _) as [blog [e|]] eqn:Hdec;
      [discriminate|].
    intros H; inversion H; subst. split; [|reflexivity].
    exists response, blog. repeat split. exact Hdec. }
  destruct Hsrc as [Hsrc Hclient].
  split; [exact Hsrc|]. split; [exact Hclient|].
  unfold BlogRef_GetPosts, BlogRef_GetInfo. rewrite Hclient.
  split; reflexivity.
Qed.

End ClientMore.

Lemma GetAvatar_success_source_witness :
  @None error = None
  /\ 1%nat = 1%nat
  /\ ((Header.Get [] "Location" <> "" /\ "" = Header.Get [] "Location")
      \/ (Header.Get [] "Location" = ""
          /\ exists r,
               ref_PopulateFromBody
                 (Response.mk (text "{'response':{'location':''}}") [] None)
               = (r, None)
               /\ Response.index r "location" = Some (json.Str ""))).
Proof.
  exact (@GetAvatar_success_source (fun _ _ => "") mock.t nat mock.Get
           ref_PopulateFromBody
           (mock.answers "{'response':{'location':''}}" []) "foo" 0 1 1
           (Response.mk (text "{'response':{'location':''}}") [] None)
           None "" eq_refl eq_refl).
Defined.

Lemma Blog_follow_up_witness :
  let c := mock.answers "{'response':{'blog':{'name':'staff'}}}" [] in
  let b := Blog.set_client
             (jsonstruct.into_Blog jsonstruct.fold_ascii Blog.zero
                [("name", json.Str "staff")]) (Some c) in
  BlogRef.Name (Blog.BlogRef b) = "staff"
  /\ BlogRef_GetPosts (fun _ _ => "") mock.GetWithParams (@ref_posts mock.t)
       (Blog.BlogRef b) []
     = mock_GetPosts (Some c) "staff" [].
Proof.
  intros c b. split; [reflexivity|].
  exact (proj1 (proj2 (proj2
           (@Blog_follow_up (fun _ _ => "") mock.t nat mock.Get
              mock.GetWithParams (@ref_posts mock.t) (@ref_blog mock.t)
              c "foo" 0 1 b [] eq_refl)))).
Defined.

Lemma helpers_result_xor_error_witness :
  (Some (Blog.set_client
           (jsonstruct.into_Blog jsonstruct.fold_ascii Blog.zero
              [("name", json.Str "staff")])
           (Some (mock.answers "{'response':{'blog':{'name':'staff'}}}" [])))
   <> None /\ @None error = None)
  \/ (Some (Blog.set_client
              (jsonstruct.into_Blog jsonstruct.fold_ascii Blog.zero
                 [("name", json.Str "staff")])
              (Some (mock.answers "{'response':{'blog':{'name':'staff'}}}" [])))
      = None /\ @None error <> None).
Proof.
  destruct (@helpers_result_xor_error (fun _ _ => "") mock.t nat mock.Get
              mock.GetWithParams (@ref_posts mock.t) (@ref_blog mock.t)
              ref_PopulateFromBody
              (mock.answers "{'response':{'blog':{'name':'staff'}}}" [])
              "foo" [] 0) as (_ & Hinfo & _).
  exact (Hinfo _ _ 1 eq_refl).
Defined.

(* ================================================================== *)
(** * Setting the client of a post *)
(* ================================================================== *)

Section SetClientFacts.

Variable fmt_rest : string -> list string -> string.
Variable C : Type.

(** X13: after [SetClient], the property [client] of the post is the
    client that was set, and every property other than [client] and the
    embedded [PostRef] that holds it is what it was before, an unknown
    key included. *)
Theorem SetClient_GetProperty (p : Post.t C) (c : option C) (key : string) :
  key <> "client" -> key <> "PostRef" ->
  GetProperty fmt_rest (Post_SetClient p c) "client"
  = Return (Some (reflect.ValueOf c), None)
  /\ GetProperty fmt_rest (Post_SetClient p c) key
     = GetProperty fmt_rest p key.
Proof.
  intros Hclient Href. split; [reflexivity|].
  destruct (in_dec string_dec key (map fst (Post_selectors C))) as [Hin|Hout].
  - rewrite Post_selector_names in Hin. simpl in Hin.
    repeat (destruct Hin as [<-|Hin];
            [first [reflexivity | congruence]|]).
    contradiction.
  - assert (HU : forall n, In n (map fst (Post_selectors C)) ->
                           String.eqb n key = false).
    { intros n Hn. apply String.eqb_neq. intros ->. contradiction. }
    unfold GetProperty.
    rewrite (@FieldByName_nomatch _ key _ HU (Post_fields C)
               (@Post_fields_covered C)).
    reflexivity.
Qed.

End SetClientFacts.

Lemma SetClient_GetProperty_witness :
  GetProperty (fun _ _ => "") (Post_SetClient (@Post.zero nat) (Some 7%nat))
    "client"
  = Return (Some (reflect.ValueOf (Some 7%nat)), None)
  /\ GetProperty (fun _ _ => "") (Post_SetClient (@Post.zero nat) (Some 7%nat))
       "MiniPost"
     = GetProperty (fun _ _ => "") (@Post.zero nat) "MiniPost".
Proof.
  apply (@SetClient_GetProperty (fun _ _ => "") nat Post.zero (Some 7%nat)
           "MiniPost"); discriminate.
Defined.
